(** * Health calculator: BMI, BMR/TDEE and the food log

    A shallow embedding of the three calculators of [Kawaii.py] and
    [HCA.py] ([calculate_and_track_bmi], [calculate_bmr_tdee],
    [log_food_and_plot]) together with the helper [convert_to_metric] and
    the pieces of the Python runtime they call.

    Modelling conventions.
    - Python numbers ([int] and [float]) are exact rationals [Q], and
      comparisons of numbers are the boolean comparisons of [Q]. The
      binary64 rounding of each arithmetic step is outside the model, and
      so are the [OverflowError] and the [ZeroDivisionError] that an
      overflow or an underflow brings: a number that the model computes
      can differ from the one that the code computes in its last digit,
      and the code can raise on inputs of extreme magnitude. What is
      proved below is what does not depend on either: which branch is
      taken, what is written to the state and what is left alone, and
      how results compare.
    - Python strings are [string]s (byte sequences, UTF-8 for text that
      is not ASCII); the character classes of [int] and [strptime] are
      the ASCII ones.
    - [strftime] writes a year with four digits, as every platform does
      for the years from 1000 on.
    - The three module-level globals form the record [state], passed in
      and returned by every calculator; an uncaught exception is the
      outcome [Raise].
    - [datetime.now().strftime('%Y-%m-%d')] is the argument [today].
    - A figure is the data that the chart is drawn from; the drawing by
      pandas and matplotlib, and what they refuse, are outside the model.
    - The two source files run the same statements and differ in the
      wording of their messages: the record [wording] holds those.
    - After the calculators come [save_profile_data] of [HCA.py], the
      values that the widgets of the form can send, and sequences of
      clicks on the three buttons. *)

From Stdlib Require Import ZArith QArith Qround Qabs Lqa Lia Ascii String.
From stdpp Require Import gmap strings sorting.

Open Scope string_scope.
Open Scope Q_scope.

(** ** Numbers *)

Module PyNum.

Definition Qlt_bool (a b : Q) : bool := negb (Qle_bool b a).

(** [round(x)] to the nearest integer, a tie going to the even one. *)
Definition round_half_even (q : Q) : Z :=
  let f := Qfloor q in
  match Qcompare (q - inject_Z f) (1 # 2) with
  | Lt => f
  | Gt => (f + 1)%Z
  | Eq => if Z.even f then f else (f + 1)%Z
  end.

(** [round(x, 2)]: the nearest multiple of 1/100. *)
Definition round2 (q : Q) : Q := round_half_even (q * 100) # 100.

(** [a / b], which raises [ZeroDivisionError] on a zero divisor. *)
Definition div (a b : Q) : option Q :=
  if Qeq_bool b 0 then None else Some (a / b).

End PyNum.

(** ** Exceptions *)

Inductive exn : Type :=
| ValueError
| ZeroDivisionError.

Inductive outcome (A : Type) : Type :=
| Return (a : A)
| Raise (e : exn).
Arguments Return {A} a.
Arguments Raise {A} e.

(** ** Strings *)

Module PyStr.

(** [s.split(sep)] for a non-empty [sep]: the pieces between the
    occurrences of [sep], found from left to right without overlap.
    [skip] counts the characters of a separator still to be passed and
    [cur] holds the current piece, reversed. *)
Fixpoint split_go (sep : string) (skip : nat) (cur : string) (s : string)
  : list string :=
  match s with
  | "" => [String.rev cur]
  | String c s' =>
      match skip with
      | S k => split_go sep k cur s'
      | O =>
          if String.prefix sep s
          then String.rev cur :: split_go sep (String.length sep - 1) "" s'
          else split_go sep 0 (String c cur) s'
      end
  end.

Definition split (sep s : string) : list string := split_go sep 0 "" s.

(** [s.replace(old, new)] for a non-empty [old]. *)
Fixpoint replace_go (old new : string) (skip : nat) (s : string) : string :=
  match s with
  | "" => ""
  | String c s' =>
      match skip with
      | S k => replace_go old new k s'
      | O =>
          if String.prefix old s
          then new +:+ replace_go old new (String.length old - 1) s'
          else String c (replace_go old new 0 s')
      end
  end.

Definition replace (old new s : string) : string := replace_go old new 0 s.

(** [l[0]] and [l[-1]] of a list that [split] returned (never empty). *)
Definition first (l : list string) : string := hd "" l.
Definition final (l : list string) : string := List.last l "".

(** The white space that [int] skips on both sides of an ASCII string:
    tab, line feed, vertical tab, form feed, carriage return and the
    space. *)
Definition isspace (c : ascii) : bool :=
  let n := N_of_ascii c in
  ((9 <=? n)%N && (n <=? 13)%N) || (n =? 32)%N.

Definition isdigit (c : ascii) : bool :=
  let n := N_of_ascii c in (48 <=? n)%N && (n <=? 57)%N.

Definition digit_value (c : ascii) : Z := Z.of_N (N_of_ascii c) - 48.

Fixpoint lstrip (s : string) : string :=
  match s with
  | String c s' => if isspace c then lstrip s' else s
  | "" => ""
  end.

Definition strip (s : string) : string :=
  String.rev (lstrip (String.rev (lstrip s))).

(** The digits of a decimal literal after its first digit: digits, each
    possibly preceded by one underscore. [acc] is the value so far and
    [n] the number of digits read. *)
Fixpoint digits_go (acc : Z) (n : nat) (s : string) : option (Z * nat) :=
  match s with
  | "" => Some (acc, n)
  | String c s' =>
      if isdigit c then digits_go (10 * acc + digit_value c) (S n) s'
      else if Ascii.eqb c "_" then
        match s' with
        | String d s'' =>
            if isdigit d then digits_go (10 * acc + digit_value d) (S n) s''
            else None
        | "" => None
        end
      else None
  end.

(** The default of [sys.get_int_max_str_digits()]. *)
Definition int_max_str_digits : nat := 4300.

Definition unsigned (s : string) : option Z :=
  match s with
  | String c s' =>
      if isdigit c then
        match digits_go (digit_value c) 1 s' with
        | Some (v, n) => if (int_max_str_digits <? n)%nat then None else Some v
        | None => None
        end
      else None
  | "" => None
  end.

(** [int(s)]: [None] stands for the [ValueError] of a string that is not
    a decimal integer literal. *)
Definition int (s : string) : option Z :=
  match strip s with
  | String "+" s' => unsigned s'
  | String "-" s' => Z.opp <$> unsigned s'
  | t => unsigned t
  end.

End PyStr.


(** ** Dates *)

Module PyDate.

Record date : Type := { year : Z; month : Z; day : Z }.

Definition is_leap (y : Z) : bool :=
  ((y mod 4 =? 0) && (negb (y mod 100 =? 0) || (y mod 400 =? 0)))%Z.

Definition days_in_month (y m : Z) : Z :=
  if ((m =? 2) && is_leap y)%Z then 29%Z
  else nth (Z.to_nat (m - 1))
         [31; 28; 31; 30; 31; 30; 31; 31; 30; 31; 30; 31]%Z 0%Z.

(** The date constructor's range check. *)
Definition valid (d : date) : bool :=
  ((1 <=? year d) && (year d <=? 9999) && (1 <=? month d) && (month d <=? 12)
   && (1 <=? day d) && (day d <=? days_in_month (year d) (month d)))%Z.

Definition between (lo hi c : ascii) : bool :=
  ((N_of_ascii lo <=? N_of_ascii c) && (N_of_ascii c <=? N_of_ascii hi))%N.

Definition orelse {A} (a b : option A) : option A :=
  match a with Some x => Some x | None => b end.

Section Regex.
Context {A : Type}.

(** One literal character, then the rest of the pattern. *)
Definition lit (c : ascii) (k : string -> option A) (s : string) : option A :=
  match s with
  | String a r => if Ascii.eqb a c then k r else None
  | "" => None
  end.

(** [%Y]: four digits. *)
Definition dir_Y (k : Z -> string -> option A) (s : string) : option A :=
  match s with
  | String a (String b (String c (String d r))) =>
      if PyStr.isdigit a && PyStr.isdigit b && PyStr.isdigit c && PyStr.isdigit d
      then k (1000 * PyStr.digit_value a + 100 * PyStr.digit_value b
              + 10 * PyStr.digit_value c + PyStr.digit_value d)%Z r
      else None
  | _ => None
  end.

(** Two characters in the given ranges, read as a two-digit number
    (a space counts as zero). *)
Definition two (lo1 hi1 lo2 hi2 : ascii) (k : Z -> string -> option A)
    (s : string) : option A :=
  match s with
  | String a (String b r) =>
      if between lo1 hi1 a && between lo2 hi2 b
      then k ((if Ascii.eqb a " " then 0 else 10 * PyStr.digit_value a)
              + PyStr.digit_value b)%Z r
      else None
  | _ => None
  end.

Definition one (lo hi : ascii) (k : Z -> string -> option A) (s : string)
  : option A :=
  match s with
  | String a r => if between lo hi a then k (PyStr.digit_value a) r else None
  | "" => None
  end.

(** [%m]: the alternatives 1[0-2], 0[1-9], [1-9], tried in this order. *)
Definition dir_m (k : Z -> string -> option A) (s : string) : option A :=
  orelse (two "1" "1" "0" "2" k s)
    (orelse (two "0" "0" "1" "9" k s) (one "1" "9" k s)).

(** [%d]: the alternatives 3[0-1], [1-2]\d, 0[1-9], [1-9], space [1-9]. *)
Definition dir_d (k : Z -> string -> option A) (s : string) : option A :=
  orelse (two "3" "3" "0" "1" k s)
    (orelse (two "1" "2" "0" "9" k s)
       (orelse (two "0" "0" "1" "9" k s)
          (orelse (one "1" "9" k s) (two " " " " "1" "9" k s)))).
End Regex.

(** The first match of the pattern of ['%Y-%m-%d'] at the start of [s],
    with the text left over. *)
Definition regex_match (s : string) : option (date * string) :=
  dir_Y (fun y => lit "-" (dir_m (fun m => lit "-" (dir_d (fun d r =>
    Some ({| year := y; month := m; day := d |}, r)))))) s.

(** [datetime.strptime(s, '%Y-%m-%d')]: [None] stands for its
    [ValueError] (no match, unconverted data left, or no such day). *)
Definition strptime (s : string) : option date :=
  match regex_match s with
  | Some (d, "") => if valid d then Some d else None
  | _ => None
  end.

Definition digit_char (n : Z) : ascii := ascii_of_N (Z.to_N (48 + n mod 10)).

Definition pad2 (n : Z) : string :=
  String (digit_char (n / 10)) (String (digit_char n) "").

Definition pad4 (n : Z) : string :=
  String (digit_char (n / 1000)) (String (digit_char (n / 100)) (pad2 n)).

(** [d.strftime('%Y-%m-%d')], the year written with four digits. *)
Definition strftime (d : date) : string :=
  pad4 (year d) +:+ "-" +:+ pad2 (month d) +:+ "-" +:+ pad2 (day d).

End PyDate.

(** ** Session state and messages *)

(** The three globals [bmi_history], [daily_calories] and [tdee_value]. *)
Record state : Type := {
  bmi_history : gmap string Q;
  daily_calories : gmap string Q;
  tdee_value : Q }.

(** The globals as the module initialises them. *)
Definition fresh : state :=
  {| bmi_history := ∅; daily_calories := ∅; tdee_value := 0 |}.

(** What the calculators hand to the plot widget: the blank figure of
    [create_empty_plot] with its title, or the bar chart with one bar per
    date and the dashed horizontal line at [tdee_line]. Colours, labels
    and the other cosmetic attributes of the figure are left out. *)
Inductive figure : Type :=
| EmptyPlot (message : string)
| BarChart (dates : list string) (calories : list Q) (tdee_line : Q).

Definition create_empty_plot (message : string) : figure := EmptyPlot message.

(** A status message. A plain string is one [Text]; an f-string is the
    list of its parts, a [Number] standing for the text that Python
    writes for that number. *)
Inductive piece : Type :=
| Text (s : string)
| Number (q : Q).

Definition text : Type := list piece.

(** The texts in which [Kawaii.py] and [HCA.py] differ. *)
Record wording : Type := {
  bmi_tail : string;
  invalid_energy : string;
  energy_done : string;
  invalid_log : string;
  logged_head : string;
  logged_tail : string;
  tdee_first : string;
  nothing_logged : string }.

(** The messages of [Kawaii.py]. *)
Definition Kawaii : wording := {|
  bmi_tail := "";
  invalid_energy := "Please enter positive values for age, height, and weight.";
  energy_done := "Results updated! ✨";
  invalid_log := "Please enter a valid calorie amount and food name. 😟";
  logged_head := "Food logged successfully! Logged: ";
  logged_tail := " kcal 🎉";
  tdee_first := "Please calculate your TDEE in Tab 2 first! ☝️";
  nothing_logged := "No food logged yet. 🥗" |}.

(** The messages of [HCA.py], byte for byte. *)
Definition HCA : wording := {|
  bmi_tail := " âœ¨";
  invalid_energy := "Please enter positive values for age, height, and weight. ðŸ™";
  energy_done := "Results updated successfully! ðŸ’–";
  invalid_log := "Oops! Please enter a valid calorie amount and food name. ðŸ˜Ÿ";
  logged_head := "Yay! Logged: ";
  logged_tail := " kcal ðŸŽ‰";
  tdee_first := "Please calculate your TDEE in Tab 2 first! â˜ï¸";
  nothing_logged := "No food logged yet. Let's add some! ðŸ¥—" |}.

(** ** The calculators *)

(** [convert_to_metric]: inches to centimetres and pounds to kilograms. *)
Definition convert_to_metric (height weight : Q) (units : string) : Q * Q :=
  if String.eqb units "in/lbs"
  then (height * 2.54, weight * 0.453592)
  else (height, weight).

(** The category chain of [calculate_and_track_bmi]. *)
Definition bmi_category (bmi : Q) : string :=
  if PyNum.Qlt_bool bmi 18.5 then "Underweight"
  else if Qle_bool 18.5 bmi && PyNum.Qlt_bool bmi 24.9 then "Normal weight"
  else if Qle_bool 25 bmi && PyNum.Qlt_bool bmi 29.9 then "Overweight"
  else "Obese".

(** The dictionary literal [activity_multipliers]. *)
Definition activity_multipliers : list (string * Q) :=
  [ ("Sedentary (little to no exercise)", 1.2);
    ("Lightly active (1-3 days/week)", 1.375);
    ("Moderately active (3-5 days/week)", 1.55);
    ("Very active (6-7 days/week)", 1.725);
    ("Extra active (daily intense exercise)", 1.9) ].

(** [d.get(k, default)] on a dictionary literal. *)
Fixpoint dict_get (d : list (string * Q)) (k : string) (default : Q) : Q :=
  match d with
  | [] => default
  | (k', v) :: d' => if String.eqb k k' then v else dict_get d' k default
  end.

(** Truth value of an optional string: [None] and [""] are false. *)
Definition truthy (s : option string) : bool :=
  match s with
  | Some (String _ _) => true
  | _ => false
  end.

(** The first block of [log_food_and_plot]: the calories and the name to
    log, [(0, "")] when neither branch applies. The catalog branch raises
    the [ValueError] of [int]. *)
Definition resolve_entry (food : string) (manual_food_name : option string)
    (manual_calories : option Q) : outcome (Q * string) :=
  if negb (String.eqb food "Other") then
    match PyStr.int (PyStr.replace " kcal" ""
                       (PyStr.final (PyStr.split " - " food))) with
    | Some n => Return (inject_Z n, PyStr.first (PyStr.split " - " food))
    | None => Raise ValueError
    end
  else
    match manual_calories with
    | Some c =>
        if PyNum.Qlt_bool 0 c && truthy manual_food_name
        then Return (c, default "" manual_food_name)
        else Return (0, "")
    | None => Return (0, "")
    end.

(** The block "Log food": adds to today's total, or starts it. *)
Definition log_food (today_str : string) (calories_to_add : Q)
    (daily_calories : gmap string Q) : gmap string Q :=
  match daily_calories !! today_str with
  | Some total => <[today_str := total + calories_to_add]> daily_calories
  | None => <[today_str := calories_to_add]> daily_calories
  end.

(** The block "Prepare data for plotting": the dates in ascending order
    and the total of each. *)
Definition chart_dates (daily_calories : gmap string Q) : list string :=
  merge_sort String.le (map_to_list daily_calories).*1.

Definition chart_calories (daily_calories : gmap string Q) : list Q :=
  (fun d => default 0 (daily_calories !! d)) <$> chart_dates daily_calories.

(** [common_foods] of [Kawaii.py]. *)
Definition common_foods : list string :=
  [ "Chicken with bazil - 500 kcal";
    "Omelet - 450 kcal";
    "Tom Yum Kung - 90 kcal";
    "Phad Thai - 550 kcal";
    "Chicken Green Curry - 240 kcal";
    "Papaya Salad - 70 kcal";
    "Stew Pork Leg - 650 kcal";
    "Chicken Rice - 600 kcal";
    "Chicken Massaman - 400 kcal";
    "Phad See Ew - 550 kcal";
    "Rice - 130 kcal";
    "Other" ].

(** [common_foods] of [HCA.py]. *)
Definition common_foods_HCA : list string :=
  [ "Chicken with bazil - 500 kcal";
    "Omelet - 450 kcal";
    "Tom Yum Kung - 90 kcal";
    "Phad Thai - 550 kcal";
    "Chicken Green Curry - 240 kcal";
    "Papaya Salad - 70 kcal";
    "Stew Pork Leg - 650 kcal";
    "Chicken Rice - 600 kcal";
    "Chicken Massaman - 400 kcal";
    "Phad See Ew - 550 kcal";
    "Rice - 130 kcal";
    "Thai Tea - 200 kcal";
    "Mango Sticky Rice - 350 kcal";
    "Coconut Milk Ice Cream - 280 kcal";
    "Thai-style fried rice - 550 kcal";
    "Pork Satay - 150 kcal";
    "Green Papaya Salad with Salted Egg - 180 kcal";
    "Pad Krapow (Stir-fried Basil) - 450 kcal";
    "Other" ].

Section Calculators.

Variable W : wording.

(** Tab 1. *)
Definition calculate_and_track_bmi (height weight : Q)
    (units date_str : string) (st : state)
  : outcome (Q * string * text) * state :=
  if Qle_bool height 0 || Qle_bool weight 0 then
    (Return (0, "Invalid input",
             [Text "Please enter positive values for height and weight."]), st)
  else
    match PyDate.strptime date_str with
    | None =>
        (Return (0, "Invalid date format",
                 [Text "Please enter date in YYYY-MM-DD format."]), st)
    | Some date =>
        let '(height_cm, weight_kg) := convert_to_metric height weight units in
        let height_m := height_cm / 100 in
        match PyNum.div weight_kg (height_m ^ 2) with
        | None => (Raise ZeroDivisionError, st)
        | Some bmi =>
            let bmi := PyNum.round2 bmi in
            let category := bmi_category bmi in
            let date_str := PyDate.strftime date in
            (Return (bmi, category,
                     [Text "Your BMI is "; Number bmi; Text ". Category: ";
                      Text category; Text (bmi_tail W)]),
             {| bmi_history := <[date_str := bmi]> (bmi_history st);
                daily_calories := daily_calories st;
                tdee_value := tdee_value st |})
        end
    end.

(** Tab 2. *)
Definition calculate_bmr_tdee (age : Q) (gender : string) (height weight : Q)
    (activity_level : string) (st : state)
  : outcome (Q * Q * Q * Q * Q * text) * state :=
  if Qle_bool age 0 || Qle_bool height 0 || Qle_bool weight 0 then
    (Return (0, 0, 0, 0, 0, [Text (invalid_energy W)]), st)
  else
    let bmr :=
      if String.eqb gender "Male"
      then 66.5 + (13.75 * weight) + (5.003 * height) - (6.75 * age)
      else 655.1 + (9.563 * weight) + (1.850 * height) - (4.676 * age) in
    let tdee := bmr * dict_get activity_multipliers activity_level 1.2 in
    let loss_calories := tdee - 500 in
    let gain_calories := tdee + 500 in
    (Return (bmr, tdee, tdee, loss_calories, gain_calories,
             [Text (energy_done W)]),
     {| bmi_history := bmi_history st;
        daily_calories := daily_calories st;
        tdee_value := tdee |}).

(** Tab 3. *)
Definition log_food_and_plot (food : string) (manual_food_name : option string)
    (manual_calories : option Q) (today : string) (st : state)
  : outcome (Q * figure * text) * state :=
  match resolve_entry food manual_food_name manual_calories with
  | Raise e => (Raise e, st)
  | Return (calories_to_add, food_name_to_log) =>
      if Qle_bool calories_to_add 0 || negb (truthy (Some food_name_to_log)) then
        (Return (default 0 (daily_calories st !! today),
                 create_empty_plot (invalid_log W), [Text (invalid_log W)]), st)
      else
        let logged := log_food today calories_to_add (daily_calories st) in
        let st' := {| bmi_history := bmi_history st;
                      daily_calories := logged;
                      tdee_value := tdee_value st |} in
        let log_status_message :=
          [Text (logged_head W); Text food_name_to_log; Text " - ";
           Number calories_to_add; Text (logged_tail W)] in
        if Qeq_bool (tdee_value st) 0 then
          (Return (default 0 (logged !! today),
                   create_empty_plot (tdee_first W), [Text (tdee_first W)]), st')
        else if (size logged =? 0)%nat then
          (Return (0, create_empty_plot "No Data to Display",
                   [Text (nothing_logged W)]), st')
        else
          (Return (default 0 (logged !! today),
                   BarChart (chart_dates logged) (chart_calories logged)
                     (tdee_value st),
                   log_status_message), st')
  end.

End Calculators.

(** ** Sessions *)

(** The arguments of one click on the button of Tab 1. *)
Record bmi_call : Type := {
  call_height : Q;
  call_weight : Q;
  call_units : string;
  call_date : string }.

(** The state after one call, and after a sequence of calls made one
    after the other. *)
Definition bmi_step (W : wording) (st : state) (c : bmi_call) : state :=
  (calculate_and_track_bmi W (call_height c) (call_weight c) (call_units c)
     (call_date c) st).2.


(** A call that passes both checks of Tab 1 and whose date is written
    [key] by [strftime]. *)
Definition records_on (key : string) (c : bmi_call) : Prop :=
  0 < call_height c /\ 0 < call_weight c
  /\ exists dt, PyDate.strptime (call_date c) = Some dt
                /\ PyDate.strftime dt = key.

(** The value that a call returns, when it returns. *)
Definition returned {A : Type} (r : outcome A * state) : option A :=
  match r.1 with
  | Return a => Some a
  | Raise _ => None
  end.

(** ** Sample inputs *)

(** A session with a TDEE computed and one earlier day logged. *)
Definition sample_state : state :=
  {| bmi_history := ∅;
     daily_calories := {[ "2024-01-04" := 1800 ]};
     tdee_value := 2000 |}.

(** Three clicks for the same day, the date typed in three ways. *)
Definition morning_call : bmi_call :=
  {| call_height := 170; call_weight := 70; call_units := "cm/kg";
     call_date := "2024-1-5" |}.



(** ** The profile tab of [HCA.py] *)

(** [save_profile_data] on the fourth global of [HCA.py], the dictionary
    [personal_data]. The message interpolates strings only, so it is a
    string. *)
Definition save_profile_data (name email goal : string)
    (personal_data : gmap string string) : string * gmap string string :=
  let personal_data := <["name" := name]> personal_data in
  let personal_data := <["email" := email]> personal_data in
  let personal_data := <["goal" := goal]> personal_data in
  ("Profile updated for " +:+ name +:+ "! Good luck with your goal: " +:+ goal
   +:+ "! ðŸ¥³",
   personal_data).

(** ** The form *)

(** The values that [gr.Slider(minimum, maximum, step)] sends: the
    multiples of [step] counted from [minimum], up to [maximum]. *)
Definition slider (minimum maximum step value : Q) : bool :=
  Qle_bool minimum value && Qle_bool value maximum
  && Pos.eqb (Qden (Qred ((value - minimum) / step))) 1.

(** The inputs of Tab 1: [height_input], [weight_input], [unit_selector]. *)
Definition bmi_form (height weight : Q) (units : string) : bool :=
  slider 50 250 1 height && slider 20 200 0.1 weight
  && (String.eqb units "cm/kg" || String.eqb units "in/lbs").

(** The choices of [activity_input]. *)
Definition activity_choices : list string :=
  [ "Sedentary (little to no exercise)";
    "Lightly active (1-3 days/week)";
    "Moderately active (3-5 days/week)";
    "Very active (6-7 days/week)";
    "Extra active (daily intense exercise)" ].

(** The inputs of Tab 2: [age_input], [gender_input], [height_bmr],
    [weight_bmr], [activity_input]. *)
Definition energy_form (age : Q) (gender : string) (height weight : Q)
    (activity_level : string) : bool :=
  slider 10 100 1 age
  && (String.eqb gender "Male" || String.eqb gender "Female")
  && slider 50 250 1 height && slider 20 200 0.1 weight
  && existsb (String.eqb activity_level) activity_choices.

(** [lambda x: gr.update(visible=x == "Other")], the handler of
    [food_dropdown.change]: whether the column of the two manual inputs
    is shown. *)
Definition manual_input_col_visible (x : string) : bool :=
  String.eqb x "Other".

(** ** Clicks *)

(** A click on the button of one of the three tabs, with the values of
    its inputs; for the food log, with the date of the day. *)
Inductive click : Type :=
| ClickBmi (height weight : Q) (units date_str : string)
| ClickEnergy (age : Q) (gender : string) (height weight : Q)
    (activity_level : string)
| ClickLog (food : string) (manual_food_name : option string)
    (manual_calories : option Q) (today : string).

(** The globals after the handler of a click has run, and after a
    sequence of clicks. *)
Definition click_step (W : wording) (st : state) (c : click) : state :=
  match c with
  | ClickBmi height weight units date_str =>
      (calculate_and_track_bmi W height weight units date_str st).2
  | ClickEnergy age gender height weight activity_level =>
      (calculate_bmr_tdee W age gender height weight activity_level st).2
  | ClickLog food manual_food_name manual_calories today =>
      (log_food_and_plot W food manual_food_name manual_calories today st).2
  end.

Definition session (W : wording) (clicks : list click) (st : state) : state :=
  fold_left (click_step W) clicks st.

(** The tab of a click. *)
Definition on_bmi_tab (c : click) : bool :=
  match c with ClickBmi _ _ _ _ => true | _ => false end.

Definition on_energy_tab (c : click) : bool :=
  match c with ClickEnergy _ _ _ _ _ => true | _ => false end.

Definition on_food_tab (c : click) : bool :=
  match c with ClickLog _ _ _ _ => true | _ => false end.

(** A click whose inputs, when it is on Tab 2, are values that the
    inputs of that tab can send. *)
Definition energy_from_form (c : click) : bool :=
  match c with
  | ClickEnergy age gender height weight activity_level =>
      energy_form age gender height weight activity_level
  | _ => true
  end.

(** The calories that a click on the log button adds: those of the
    resolved entry when it is accepted, nothing otherwise. *)
Definition logged_calories (food : string) (manual_food_name : option string)
    (manual_calories : option Q) : Q :=
  match resolve_entry food manual_food_name manual_calories with
  | Return (c, n) =>
      if Qle_bool c 0 || negb (truthy (Some n)) then 0 else c
  | Raise _ => 0
  end.

(** The calories that a sequence of clicks adds to the total of [day]. *)
Fixpoint calories_on (day : string) (clicks : list click) : Q :=
  match clicks with
  | [] => 0
  | ClickLog food manual_food_name manual_calories today :: rest =>
      (if String.eqb today day
       then logged_calories food manual_food_name manual_calories
       else 0)
      + calories_on day rest
  | _ :: rest => calories_on day rest
  end.

(** Food totals that are all positive. *)
Definition positive_totals (t : gmap string Q) : Prop :=
  forall d v, t !! d = Some v -> 0 < v.

(** A date text whose year, if it has one, is written without a leading
    zero: the text is empty or starts with an ASCII character other than
    the digit 0. *)
Definition plain_year (date_str : string) : bool :=
  match date_str with
  | String a _ => (N_of_ascii a <? 128)%N && negb (Ascii.eqb a "0")
  | "" => true
  end.

(** A click that, when it is on Tab 1, carries such a date text. *)
Definition years_plain (c : click) : bool :=
  match c with
  | ClickBmi _ _ _ date_str => plain_year date_str
  | _ => true
  end.

(** A history whose keys are dates of the years 1000 to 9999 in the form
    that [strftime] writes, the form that [strptime] reads back. *)
Definition canonical_history (h : gmap string Q) : Prop :=
  forall k, is_Some (h !! k) ->
    exists d, PyDate.strptime k = Some d /\ PyDate.strftime d = k
              /\ (1000 <= PyDate.year d)%Z.

(** Whether a string holds a space followed by a dash. *)
Fixpoint has_space_dash (s : string) : bool :=
  match s with
  | String c s' =>
      (Ascii.eqb c " " && String.prefix "-" s') || has_space_dash s'
  | "" => false
  end.

(** Whether a string is made of decimal digits only. *)
Fixpoint all_digits (s : string) : bool :=
  match s with
  | String c s' => PyStr.isdigit c && all_digits s'
  | "" => true
  end.

(** * Properties *)

(** ** Rounding and comparisons *)

Lemma Qlt_bool_iff (a b : Q) : PyNum.Qlt_bool a b = true <-> a < b.
Proof.
  unfold PyNum.Qlt_bool. rewrite negb_true_iff.
  split; intros H.
  - apply Qnot_le_lt. intros Hle. apply Qle_bool_iff in Hle. congruence.
  - destruct (Qle_bool b a) eqn:E; [|reflexivity].
    apply Qle_bool_iff in E. exfalso. lra.
Qed.

Lemma Qlt_bool_false_iff (a b : Q) : PyNum.Qlt_bool a b = false <-> b <= a.
Proof.
  unfold PyNum.Qlt_bool. rewrite negb_false_iff. apply Qle_bool_iff.
Qed.

Lemma Qle_bool_false_iff (a b : Q) : Qle_bool a b = false <-> b < a.
Proof.
  rewrite <- Qlt_bool_iff. unfold PyNum.Qlt_bool.
  destruct (Qle_bool a b); simpl; intuition congruence.
Qed.

Lemma Qeq_bool_false_iff (a b : Q) : Qeq_bool a b = false <-> ~ a == b.
Proof.
  split.
  - intros E H. apply Qeq_bool_iff in H. congruence.
  - intros H. destruct (Qeq_bool a b) eqn:E; [|reflexivity].
    apply Qeq_bool_iff in E. contradiction.
Qed.

Lemma inject_Z_succ (z : Z) : inject_Z (z + 1) == inject_Z z + 1.
Proof. rewrite inject_Z_plus. reflexivity. Qed.

Lemma floor_bounds (q : Q) :
  inject_Z (Qfloor q) <= q /\ q < inject_Z (Qfloor q) + 1.
Proof.
  split; [apply Qfloor_le|].
  rewrite <- inject_Z_succ. apply Qlt_floor.
Qed.

(** [round_half_even] returns a nearest integer. *)
Lemma round_half_even_near (q : Q) :
  Qabs (q - inject_Z (PyNum.round_half_even q)) <= 1 # 2.
Proof.
  destruct (floor_bounds q) as [Hlo Hhi].
  apply Qabs_Qle_condition. unfold PyNum.round_half_even.
  destruct (Qcompare (q - inject_Z (Qfloor q)) (1 # 2)) eqn:E.
  - apply Qeq_alt in E.
    destruct (Z.even (Qfloor q)); [|rewrite inject_Z_succ]; lra.
  - apply Qlt_alt in E. lra.
  - apply Qgt_alt in E. rewrite inject_Z_succ. lra.
Qed.

(** At a tie it returns the even neighbour. *)
Lemma round_half_even_tie (q : Q) :
  Qabs (q - inject_Z (PyNum.round_half_even q)) == 1 # 2 ->
  Z.even (PyNum.round_half_even q) = true.
Proof.
  destruct (floor_bounds q) as [Hlo Hhi].
  unfold PyNum.round_half_even.
  destruct (Qcompare (q - inject_Z (Qfloor q)) (1 # 2)) eqn:E.
  - destruct (Z.even (Qfloor q)) eqn:Ev; [auto|].
    intros _. rewrite Z.even_add, Ev. reflexivity.
  - apply Qlt_alt in E. intros H.
    rewrite Qabs_pos in H by lra. lra.
  - apply Qgt_alt in E. rewrite inject_Z_succ. intros H.
    rewrite Qabs_neg in H by lra. lra.
Qed.

Lemma Qmake_100 (n : Z) : n # 100 == inject_Z n / 100.
Proof. unfold Qeq, Qdiv, Qmult, Qinv, inject_Z. simpl. lia. Qed.

(** [round2] returns a nearest multiple of 1/100. *)
Lemma round2_near (q : Q) : Qabs (PyNum.round2 q - q) <= 1 # 200.
Proof.
  unfold PyNum.round2. rewrite Qmake_100.
  pose proof (round_half_even_near (q * 100)) as H.
  apply Qabs_Qle_condition in H. apply Qabs_Qle_condition.
  set (n := inject_Z (PyNum.round_half_even (q * 100))) in *.
  unfold Qdiv. change (/ 100) with (1 # 100). lra.
Qed.

Lemma round2_hundredths (q : Q) : Qden (PyNum.round2 q) = 100%positive.
Proof. reflexivity. Qed.

(** ** The runtime pieces on sample inputs *)

Example split_catalog_entry :
  PyStr.split " - " "Thai-style fried rice - 550 kcal"
  = ["Thai-style fried rice"; "550 kcal"].
Proof. reflexivity. Qed.

Example split_without_separator : PyStr.split " - " "Other" = ["Other"].
Proof. reflexivity. Qed.

Example split_overlapping : PyStr.split " - " "a - - b" = ["a"; "- b"].
Proof. reflexivity. Qed.

Example replace_suffix : PyStr.replace " kcal" "" "550 kcal" = "550".
Proof. reflexivity. Qed.

Example int_accepts :
  PyStr.int "550" = Some 550%Z /\ PyStr.int " +1_000 " = Some 1000%Z
  /\ PyStr.int "-007" = Some (-7)%Z.
Proof. repeat split; reflexivity. Qed.

Example int_rejects :
  PyStr.int "" = None /\ PyStr.int "zero" = None /\ PyStr.int "5.5" = None
  /\ PyStr.int "1__0" = None /\ PyStr.int "- 5" = None.
Proof. repeat split; reflexivity. Qed.

Example strptime_accepts :
  PyDate.strptime "2024-02-29"
  = Some {| PyDate.year := 2024; PyDate.month := 2; PyDate.day := 29 |}
  /\ PyDate.strptime "2024-1-5"
     = Some {| PyDate.year := 2024; PyDate.month := 1; PyDate.day := 5 |}.
Proof. split; reflexivity. Qed.

Example strptime_rejects :
  PyDate.strptime "2023-02-29" = None /\ PyDate.strptime "2024-13-01" = None
  /\ PyDate.strptime "24-01-05" = None /\ PyDate.strptime "2024-01-05 " = None
  /\ PyDate.strptime "0000-01-05" = None.
Proof. repeat split; reflexivity. Qed.

Example round2_ties :
  PyNum.round2 0.125 = 0.12 /\ PyNum.round2 0.135 = 0.14
  /\ PyNum.round2 (-0.125) = -0.12.
Proof. repeat split; reflexivity. Qed.

(** ** Dates: what [strftime] writes, [strptime] reads back *)

Lemma digit_char_digit (n : Z) :
  PyStr.isdigit (PyDate.digit_char n) = true
  /\ PyStr.digit_value (PyDate.digit_char n) = (n mod 10)%Z.
Proof.
  unfold PyDate.digit_char.
  pose proof (Z.mod_pos_bound n 10 eq_refl) as Hr.
  set (r := (n mod 10)%Z) in *.
  assert (r = 0 \/ r = 1 \/ r = 2 \/ r = 3 \/ r = 4 \/ r = 5 \/ r = 6 \/ r = 7
          \/ r = 8 \/ r = 9)%Z as Hc by lia.
  clearbody r.
  repeat (destruct Hc as [-> | Hc]; [split; reflexivity|]).
  subst r. split; reflexivity.
Qed.

Lemma four_digits (y : Z) :
  (0 <= y <= 9999)%Z ->
  (1000 * ((y / 1000) mod 10) + 100 * ((y / 100) mod 10)
   + 10 * ((y / 10) mod 10) + y mod 10 = y)%Z.
Proof. intros H. Z.div_mod_to_equations. lia. Qed.

Lemma append_String (c : ascii) (s r : string) :
  String c s +:+ r = String c (s +:+ r).
Proof. reflexivity. Qed.

Lemma append_empty (r : string) : "" +:+ r = r.
Proof. reflexivity. Qed.

Lemma dir_Y_pad4 {A : Type} (k : Z -> string -> option A) (y : Z) (rest : string) :
  (0 <= y <= 9999)%Z -> PyDate.dir_Y k (PyDate.pad4 y +:+ rest) = k y rest.
Proof.
  intros Hy. unfold PyDate.pad4, PyDate.pad2, PyDate.dir_Y.
  rewrite !append_String, append_empty.
  rewrite !(proj1 (digit_char_digit _)), !(proj2 (digit_char_digit _)).
  cbn [andb]. rewrite (four_digits y Hy). reflexivity.
Qed.

Ltac read_padded Hx :=
  match goal with
  | |- context [PyDate.pad2 ?n] =>
      let s := eval vm_compute in (PyDate.pad2 n) in
      change (PyDate.pad2 n) with s
  end;
  rewrite !append_String, append_empty;
  vm_compute; vm_compute in Hx; rewrite Hx; reflexivity.

Lemma dir_m_pad2 {A : Type} (k : Z -> string -> option A) (m : Z) (rest : string) :
  (1 <= m <= 12)%Z -> is_Some (k m rest) ->
  PyDate.dir_m k (PyDate.pad2 m +:+ rest) = k m rest.
Proof.
  intros Hm [x Hx].
  assert (exists n : nat, m = Z.of_nat n /\ (n <= 12)%nat) as (n & -> & Hn).
  { exists (Z.to_nat m). lia. }
  do 13 (destruct n as [|n]; [first [ lia | read_padded Hx ]|]).
  lia.
Qed.

Lemma dir_d_pad2 {A : Type} (k : Z -> string -> option A) (d : Z) (rest : string) :
  (1 <= d <= 31)%Z -> is_Some (k d rest) ->
  PyDate.dir_d k (PyDate.pad2 d +:+ rest) = k d rest.
Proof.
  intros Hd [x Hx].
  assert (exists n : nat, d = Z.of_nat n /\ (n <= 31)%nat) as (n & -> & Hn).
  { exists (Z.to_nat d). lia. }
  do 32 (destruct n as [|n]; [first [ lia | read_padded Hx ]|]).
  lia.
Qed.

Lemma valid_ranges (d : PyDate.date) :
  PyDate.valid d = true ->
  (0 <= PyDate.year d <= 9999 /\ 1 <= PyDate.month d <= 12
   /\ 1 <= PyDate.day d <= 31)%Z.
Proof.
  intros Hv. unfold PyDate.valid in Hv.
  repeat (apply andb_true_iff in Hv as [Hv ?]).
  assert (PyDate.days_in_month (PyDate.year d) (PyDate.month d) <= 31)%Z.
  { unfold PyDate.days_in_month. destruct (_ && _); [lia|].
    set (m := PyDate.month d) in *.
    assert (m = 1 \/ m = 2 \/ m = 3 \/ m = 4 \/ m = 5 \/ m = 6 \/ m = 7 \/ m = 8
            \/ m = 9 \/ m = 10 \/ m = 11 \/ m = 12)%Z as Hc by lia.
    clearbody m.
    repeat (destruct Hc as [-> | Hc]; [simpl; lia|]). subst m. simpl. lia. }
  lia.
Qed.

(** A date written by [strftime] is read back by [strptime]. *)
Lemma strptime_strftime (d : PyDate.date) :
  PyDate.valid d = true -> PyDate.strptime (PyDate.strftime d) = Some d.
Proof.
  intros Hv. destruct (valid_ranges d Hv) as (Hy & Hm & Hd).
  unfold PyDate.strptime, PyDate.regex_match, PyDate.strftime.
  rewrite (dir_Y_pad4 _ _ _ Hy). rewrite append_String, append_empty.
  cbn [PyDate.lit Ascii.eqb Bool.eqb].
  rewrite (dir_m_pad2 _ _ _ Hm); rewrite append_String, append_empty;
    cbn [PyDate.lit Ascii.eqb Bool.eqb].
  - assert (PyDate.pad2 (PyDate.day d) = PyDate.pad2 (PyDate.day d) +:+ "") as ->.
    { reflexivity. }
    rewrite (dir_d_pad2 _ _ _ Hd); [|eexists; reflexivity].
    destruct d as [y m dd]. simpl in *. rewrite Hv. reflexivity.
  - assert (PyDate.pad2 (PyDate.day d) = PyDate.pad2 (PyDate.day d) +:+ "") as ->.
    { reflexivity. }
    rewrite (dir_d_pad2 _ _ _ Hd); eexists; reflexivity.
Qed.

Lemma strptime_valid (s : string) (d : PyDate.date) :
  PyDate.strptime s = Some d -> PyDate.valid d = true.
Proof.
  unfold PyDate.strptime. intros H.
  destruct (PyDate.regex_match s) as [[d' [|? ?]]|]; try discriminate.
  destruct (PyDate.valid d') eqn:Hv; [|discriminate].
  injection H as <-. exact Hv.
Qed.

(** The normalised form of a date string is a date string for the same
    day, and normalising it again changes nothing. *)
Lemma normalised_date_parses (s : string) (d : PyDate.date) :
  PyDate.strptime s = Some d ->
  PyDate.strptime (PyDate.strftime d) = Some d.
Proof. intros H. apply strptime_strftime, (strptime_valid s), H. Qed.

(** ** The BMI calculator *)



Lemma convert_to_metric_pos (height weight : Q) (units : string) :
  0 < height -> 0 < weight ->
  0 < (convert_to_metric height weight units).1
  /\ 0 < (convert_to_metric height weight units).2.
Proof.
  intros Hh Hw. unfold convert_to_metric.
  destruct (String.eqb units "in/lbs"); simpl; split; lra.
Qed.

Lemma square_metres_nonzero (height_cm : Q) :
  0 < height_cm -> Qeq_bool ((height_cm / 100) ^ 2) 0 = false.
Proof.
  intros H. apply Qeq_bool_false_iff.
  change ((height_cm / 100) ^ 2) with ((height_cm / 100) * (height_cm / 100)).
  assert (0 < height_cm / 100) as H1.
  { unfold Qdiv. change (/ 100) with (1 # 100). lra. }
  pose proof (Qmult_lt_0_compat _ _ H1 H1). lra.
Qed.

(** The four branches of the category chain, read on the order of [Q]. *)
Lemma bmi_category_underweight (bmi : Q) :
  bmi < 18.5 -> bmi_category bmi = "Underweight".
Proof.
  intros H. unfold bmi_category.
  apply Qlt_bool_iff in H. rewrite H. reflexivity.
Qed.

Lemma bmi_category_normal (bmi : Q) :
  18.5 <= bmi -> bmi < 24.9 -> bmi_category bmi = "Normal weight".
Proof.
  intros H1 H2. unfold bmi_category.
  assert (PyNum.Qlt_bool bmi 18.5 = false) as -> by (apply Qlt_bool_false_iff; lra).
  apply Qle_bool_iff in H1 as ->. apply Qlt_bool_iff in H2 as ->. reflexivity.
Qed.

Lemma bmi_category_overweight (bmi : Q) :
  25 <= bmi -> bmi < 29.9 -> bmi_category bmi = "Overweight".
Proof.
  intros H1 H2. unfold bmi_category.
  assert (PyNum.Qlt_bool bmi 18.5 = false) as -> by (apply Qlt_bool_false_iff; lra).
  assert (PyNum.Qlt_bool bmi 24.9 = false) as -> by (apply Qlt_bool_false_iff; lra).
  rewrite andb_false_r.
  apply Qle_bool_iff in H1 as ->. apply Qlt_bool_iff in H2 as ->. reflexivity.
Qed.

Lemma bmi_category_gap (bmi : Q) :
  24.9 <= bmi -> bmi < 25 -> bmi_category bmi = "Obese".
Proof.
  intros H1 H2. unfold bmi_category.
  assert (PyNum.Qlt_bool bmi 18.5 = false) as -> by (apply Qlt_bool_false_iff; lra).
  assert (PyNum.Qlt_bool bmi 24.9 = false) as -> by (apply Qlt_bool_false_iff; lra).
  assert (Qle_bool 25 bmi = false) as -> by (apply Qle_bool_false_iff; lra).
  rewrite andb_false_r. reflexivity.
Qed.

Lemma bmi_category_top (bmi : Q) :
  29.9 <= bmi -> bmi_category bmi = "Obese".
Proof.
  intros H. unfold bmi_category.
  assert (PyNum.Qlt_bool bmi 18.5 = false) as -> by (apply Qlt_bool_false_iff; lra).
  assert (PyNum.Qlt_bool bmi 24.9 = false) as -> by (apply Qlt_bool_false_iff; lra).
  assert (PyNum.Qlt_bool bmi 29.9 = false) as -> by (apply Qlt_bool_false_iff; lra).
  rewrite !andb_false_r. reflexivity.
Qed.

(** The successful path of [calculate_and_track_bmi], in one equation. *)
Lemma calculate_and_track_bmi_ok (W : wording) (height weight : Q)
    (units date_str : string) (dt : PyDate.date) (st : state) :
  0 < height -> 0 < weight -> PyDate.strptime date_str = Some dt ->
  let m := convert_to_metric height weight units in
  let bmi := PyNum.round2 (m.2 / (m.1 / 100) ^ 2) in
  calculate_and_track_bmi W height weight units date_str st
  = (Return (bmi, bmi_category bmi,
             [Text "Your BMI is "; Number bmi; Text ". Category: ";
              Text (bmi_category bmi); Text (bmi_tail W)]),
     {| bmi_history := <[PyDate.strftime dt := bmi]> (bmi_history st);
        daily_calories := daily_calories st;
        tdee_value := tdee_value st |}).
Proof.
  intros Hh Hw Hd m bmi. unfold calculate_and_track_bmi.
  rewrite (proj2 (Qle_bool_false_iff height 0) Hh).
  rewrite (proj2 (Qle_bool_false_iff weight 0) Hw).
  simpl orb. rewrite Hd.
  destruct (convert_to_metric_pos height weight units Hh Hw) as [Hc _].
  subst bmi m. destruct (convert_to_metric height weight units) as [hc wk].
  simpl fst in *. simpl snd in *.
  unfold PyNum.div. rewrite (square_metres_nonzero hc Hc). reflexivity.
Qed.

Lemma calculate_and_track_bmi_invalid_input (W : wording) (height weight : Q)
    (units date_str : string) (st : state) :
  height <= 0 \/ weight <= 0 ->
  calculate_and_track_bmi W height weight units date_str st
  = (Return (0, "Invalid input",
             [Text "Please enter positive values for height and weight."]),
     st).
Proof.
  intros H. unfold calculate_and_track_bmi.
  assert (Qle_bool height 0 || Qle_bool weight 0 = true) as ->; [|reflexivity].
  apply orb_true_iff. destruct H as [H | H]; [left | right];
    apply Qle_bool_iff; exact H.
Qed.

Lemma calculate_and_track_bmi_invalid_date (W : wording) (height weight : Q)
    (units date_str : string) (st : state) :
  0 < height -> 0 < weight -> PyDate.strptime date_str = None ->
  calculate_and_track_bmi W height weight units date_str st
  = (Return (0, "Invalid date format",
             [Text "Please enter date in YYYY-MM-DD format."]),
     st).
Proof.
  intros Hh Hw Hd. unfold calculate_and_track_bmi.
  rewrite (proj2 (Qle_bool_false_iff height 0) Hh).
  rewrite (proj2 (Qle_bool_false_iff weight 0) Hw).
  simpl orb. rewrite Hd. reflexivity.
Qed.

(** C5. A height or a weight that is not positive gives the
    "Invalid input" result with bmi 0, and positive values with a date
    that does not parse give the "Invalid date format" result; either
    way the state handed back is the state received, so the stored BMI
    history is untouched. *)
Theorem bmi_errors_keep_history (W : wording) (height weight : Q)
    (units date_str : string) (st : state) :
  (height <= 0 \/ weight <= 0 ->
   calculate_and_track_bmi W height weight units date_str st
   = (Return (0, "Invalid input",
              [Text "Please enter positive values for height and weight."]),
      st))
  /\ (0 < height -> 0 < weight -> PyDate.strptime date_str = None ->
      calculate_and_track_bmi W height weight units date_str st
      = (Return (0, "Invalid date format",
                 [Text "Please enter date in YYYY-MM-DD format."]),
         st)).
Proof.
  split.
  - apply calculate_and_track_bmi_invalid_input.
  - apply calculate_and_track_bmi_invalid_date.
Qed.

Lemma bmi_errors_keep_history_witness :
  (0 <= 0 \/ 70 <= 0)
  /\ calculate_and_track_bmi Kawaii 0 70 "cm/kg" "2024-01-05" fresh
     = (Return (0, "Invalid input",
                [Text "Please enter positive values for height and weight."]),
        fresh)
  /\ PyDate.strptime "05/01/2024" = None
  /\ calculate_and_track_bmi Kawaii 170 70 "cm/kg" "05/01/2024" fresh
     = (Return (0, "Invalid date format",
                [Text "Please enter date in YYYY-MM-DD format."]),
        fresh).
Proof.
  assert (0 <= 0 \/ 70 <= 0) as H0 by (left; discriminate).
  split; [exact H0|].
  split.
  - exact (proj1 (bmi_errors_keep_history Kawaii 0 70 "cm/kg" "2024-01-05" fresh)
             H0).
  - split; [reflexivity|].
    exact (proj2 (bmi_errors_keep_history Kawaii 170 70 "cm/kg" "05/01/2024"
                    fresh) eq_refl eq_refl eq_refl).
Defined.



(** ** The BMI history *)

Section Entries.
Context {A : Type}.



End Entries.






(** ** The energy calculator *)

Lemma dict_get_missing (d : list (string * Q)) (k : string) (v : Q) :
  k ∉ d.*1 -> dict_get d k v = v.
Proof.
  induction d as [|[k' v'] d IH]; intros Hk; [reflexivity|].
  rewrite fmap_cons, not_elem_of_cons in Hk. destruct Hk as [Hne Hk].
  simpl. destruct (String.eqb_spec k k'); [contradiction | auto].
Qed.

Lemma energy_guard_passes (age height weight : Q) :
  0 < age -> 0 < height -> 0 < weight ->
  Qle_bool age 0 || Qle_bool height 0 || Qle_bool weight 0 = false.
Proof.
  intros Ha Hh Hw.
  rewrite (proj2 (Qle_bool_false_iff age 0) Ha).
  rewrite (proj2 (Qle_bool_false_iff height 0) Hh).
  rewrite (proj2 (Qle_bool_false_iff weight 0) Hw).
  reflexivity.
Qed.

Lemma energy_guard_fails (age height weight : Q) :
  age <= 0 \/ height <= 0 \/ weight <= 0 ->
  Qle_bool age 0 || Qle_bool height 0 || Qle_bool weight 0 = true.
Proof.
  rewrite !orb_true_iff, !Qle_bool_iff. tauto.
Qed.

(** The value of 30-year-old man of 170 cm and 70 kg, sedentary. *)
Example energy_reference_value (st : state) :
  exists bmr tdee loss gain message st',
    calculate_bmr_tdee Kawaii 30 "Male" 170 70
      "Sedentary (little to no exercise)" st
    = (Return (bmr, tdee, tdee, loss, gain, message), st')
    /\ bmr == 1677.01 /\ tdee == 2012.412
    /\ loss == 1512.412 /\ gain == 2512.412.
Proof.
  eexists _, _, _, _, _, _. split; [reflexivity|].
  repeat split; reflexivity.
Qed.

(** C2. With positive age, height and weight, [calculate_bmr_tdee]
    returns the Harris-Benedict BMR (66.5 + 13.75 w + 5.003 h - 6.75 a
    for "Male", 655.1 + 9.563 w + 1.850 h - 4.676 a for "Female"), the
    TDEE as BMR times the multiplier of the activity level (1.2, 1.375,
    1.55, 1.725, 1.9 for the five labels of the form, 1.2 for any other
    string), and the goals tdee, tdee - 500 and tdee + 500. *)
Theorem energy_formulas (W : wording) (age : Q) (gender : string)
    (height weight : Q) (activity_level : string) (st : state) :
  0 < age -> 0 < height -> 0 < weight ->
  exists bmr tdee maintenance loss gain message st',
    calculate_bmr_tdee W age gender height weight activity_level st
    = (Return (bmr, tdee, maintenance, loss, gain, message), st')
    /\ (gender = "Male" ->
        bmr = 66.5 + 13.75 * weight + 5.003 * height - 6.75 * age)
    /\ (gender = "Female" ->
        bmr = 655.1 + 9.563 * weight + 1.850 * height - 4.676 * age)
    /\ (activity_level = "Sedentary (little to no exercise)" ->
        tdee = bmr * 1.2)
    /\ (activity_level = "Lightly active (1-3 days/week)" ->
        tdee = bmr * 1.375)
    /\ (activity_level = "Moderately active (3-5 days/week)" ->
        tdee = bmr * 1.55)
    /\ (activity_level = "Very active (6-7 days/week)" ->
        tdee = bmr * 1.725)
    /\ (activity_level = "Extra active (daily intense exercise)" ->
        tdee = bmr * 1.9)
    /\ (activity_level ∉ activity_multipliers.*1 -> tdee = bmr * 1.2)
    /\ maintenance = tdee /\ loss = tdee - 500 /\ gain = tdee + 500
    /\ tdee_value st' = tdee.
Proof.
  intros Ha Hh Hw. unfold calculate_bmr_tdee.
  rewrite (energy_guard_passes age height weight Ha Hh Hw).
  eexists _, _, _, _, _, _, _. split; [reflexivity|].
  split; [intros ->; reflexivity|].
  split; [intros ->; reflexivity|].
  split; [intros ->; reflexivity|].
  split; [intros ->; reflexivity|].
  split; [intros ->; reflexivity|].
  split; [intros ->; reflexivity|].
  split; [intros ->; reflexivity|].
  split; [intros Hk; rewrite (dict_get_missing _ _ _ Hk); reflexivity|].
  repeat split; reflexivity.
Qed.

Lemma energy_formulas_witness :
  0 < 30 /\ 0 < 170 /\ 0 < 70
  /\ exists bmr tdee message st',
      calculate_bmr_tdee Kawaii 30 "Male" 170 70
        "Lightly active (1-3 days/week)" fresh
      = (Return (bmr, tdee, tdee, tdee - 500, tdee + 500, message), st')
      /\ bmr = 66.5 + 13.75 * 70 + 5.003 * 170 - 6.75 * 30
      /\ tdee = bmr * 1.375.
Proof.
  split; [reflexivity|]. split; [reflexivity|]. split; [reflexivity|].
  destruct (energy_formulas Kawaii 30 "Male" 170 70
              "Lightly active (1-3 days/week)" fresh eq_refl eq_refl eq_refl)
    as (bmr & tdee & m & l & g & message & st' & Hcall & Hmale & _ & _ & Hlight
        & _ & _ & _ & _ & -> & -> & -> & _).
  exists bmr, tdee, message, st'.
  split; [exact Hcall|]. split; [apply Hmale; reflexivity|].
  apply Hlight; reflexivity.
Defined.

(** C10. [calculate_bmr_tdee] only asks whether the gender is the string
    "Male": any other string, "Female", "male", the empty string or
    anything else, gets the second formula, and no gender changes the
    outcome of the input check. *)
Theorem gender_is_male_or_else (W : wording) (age : Q) (gender : string)
    (height weight : Q) (activity_level : string) (st : state) :
  (gender <> "Male" -> 0 < age -> 0 < height -> 0 < weight ->
   exists tdee,
     calculate_bmr_tdee W age gender height weight activity_level st
     = (Return (655.1 + 9.563 * weight + 1.850 * height - 4.676 * age,
                tdee, tdee, tdee - 500, tdee + 500, [Text (energy_done W)]),
        {| bmi_history := bmi_history st;
           daily_calories := daily_calories st;
           tdee_value := tdee |}))
  /\ (gender <> "Male" ->
      calculate_bmr_tdee W age gender height weight activity_level st
      = calculate_bmr_tdee W age "Female" height weight activity_level st)
  /\ calculate_bmr_tdee W age "male" height weight activity_level st
     = calculate_bmr_tdee W age "Female" height weight activity_level st
  /\ calculate_bmr_tdee W age "" height weight activity_level st
     = calculate_bmr_tdee W age "Female" height weight activity_level st
  /\ (0 < age -> 0 < height -> 0 < weight ->
      exists bmr tdee st',
        calculate_bmr_tdee W age gender height weight activity_level st
        = (Return (bmr, tdee, tdee, tdee - 500, tdee + 500,
                   [Text (energy_done W)]), st'))
  /\ (age <= 0 \/ height <= 0 \/ weight <= 0 ->
      calculate_bmr_tdee W age gender height weight activity_level st
      = (Return (0, 0, 0, 0, 0, [Text (invalid_energy W)]), st)).
Proof.
  assert (forall g, g <> "Male" ->
            calculate_bmr_tdee W age g height weight activity_level st
            = calculate_bmr_tdee W age "Female" height weight activity_level st)
    as Hother.
  { intros g Hg. unfold calculate_bmr_tdee.
    destruct (String.eqb_spec g "Male"); [contradiction | reflexivity]. }
  split.
  { intros Hg Ha Hh Hw. rewrite (Hother gender Hg). unfold calculate_bmr_tdee.
    rewrite (energy_guard_passes age height weight Ha Hh Hw).
    eexists. reflexivity. }
  split; [apply Hother|].
  split; [apply Hother; discriminate|].
  split; [apply Hother; discriminate|].
  split.
  - intros Ha Hh Hw. unfold calculate_bmr_tdee.
    rewrite (energy_guard_passes age height weight Ha Hh Hw).
    eexists _, _, _. reflexivity.
  - intros H. unfold calculate_bmr_tdee.
    rewrite (energy_guard_fails age height weight H). reflexivity.
Qed.

Lemma gender_is_male_or_else_witness :
  "Man" <> "Male" /\ 0 < 30 /\ 0 < 170 /\ 0 < 70
  /\ exists tdee st',
      calculate_bmr_tdee Kawaii 30 "Man" 170 70 "unknown" fresh
      = (Return (655.1 + 9.563 * 70 + 1.850 * 170 - 4.676 * 30,
                 tdee, tdee, tdee - 500, tdee + 500,
                 [Text (energy_done Kawaii)]), st').
Proof.
  assert ("Man" <> "Male") as Hg by discriminate.
  split; [exact Hg|].
  split; [reflexivity|]. split; [reflexivity|]. split; [reflexivity|].
  destruct (proj1 (gender_is_male_or_else Kawaii 30 "Man" 170 70 "unknown" fresh)
              Hg eq_refl eq_refl eq_refl) as [tdee Hcall].
  exists tdee. eexists. exact Hcall.
Defined.

(** ** The food log *)

Lemma log_food_today (today : string) (c : Q) (dc : gmap string Q) :
  log_food today c dc !! today
  = Some (match dc !! today with Some total => total + c | None => c end).
Proof.
  unfold log_food. destruct (dc !! today); apply lookup_insert_eq.
Qed.

Lemma log_food_other (today other : string) (c : Q) (dc : gmap string Q) :
  other <> today -> log_food today c dc !! other = dc !! other.
Proof.
  intros H. unfold log_food.
  destruct (dc !! today); apply lookup_insert_ne; congruence.
Qed.

Lemma log_food_not_empty (today : string) (c : Q) (dc : gmap string Q) :
  (size (log_food today c dc) =? 0)%nat = false.
Proof.
  apply Nat.eqb_neq. apply map_size_non_empty_iff.
  unfold log_food. destruct (dc !! today); apply insert_non_empty.
Qed.

(** The new total is the old one, or 0, plus the calories. *)
Lemma log_food_adds (today : string) (c : Q) (dc : gmap string Q) :
  default 0 (log_food today c dc !! today) == default 0 (dc !! today) + c.
Proof.
  rewrite log_food_today. destruct (dc !! today); simpl; lra.
Qed.

Lemma truthy_Some (s : string) : truthy (Some s) = true <-> s <> "".
Proof. destruct s; simpl; split; congruence. Qed.

Lemma log_food_and_plot_raises (W : wording) (food : string)
    (manual_food_name : option string) (manual_calories : option Q)
    (today : string) (st : state) (e : exn) :
  resolve_entry food manual_food_name manual_calories = Raise e ->
  log_food_and_plot W food manual_food_name manual_calories today st
  = (Raise e, st).
Proof. intros H. unfold log_food_and_plot. rewrite H. reflexivity. Qed.

Lemma log_food_and_plot_rejected (W : wording) (food : string)
    (manual_food_name : option string) (manual_calories : option Q)
    (today : string) (st : state) (c : Q) (n : string) :
  resolve_entry food manual_food_name manual_calories = Return (c, n) ->
  c <= 0 \/ n = "" ->
  log_food_and_plot W food manual_food_name manual_calories today st
  = (Return (default 0 (daily_calories st !! today),
             EmptyPlot (invalid_log W), [Text (invalid_log W)]), st).
Proof.
  intros H Hbad. unfold log_food_and_plot. rewrite H.
  assert (Qle_bool c 0 || negb (truthy (Some n)) = true) as ->; [|reflexivity].
  apply orb_true_iff. destruct Hbad as [Hc | ->].
  - left. apply Qle_bool_iff. exact Hc.
  - right. reflexivity.
Qed.

Lemma log_food_and_plot_accepted (W : wording) (food : string)
    (manual_food_name : option string) (manual_calories : option Q)
    (today : string) (st : state) (c : Q) (n : string) :
  resolve_entry food manual_food_name manual_calories = Return (c, n) ->
  0 < c -> n <> "" ->
  let logged := log_food today c (daily_calories st) in
  log_food_and_plot W food manual_food_name manual_calories today st
  = (Return (default 0 (logged !! today),
             (if Qeq_bool (tdee_value st) 0
              then EmptyPlot (tdee_first W)
              else BarChart (chart_dates logged) (chart_calories logged)
                     (tdee_value st)),
             (if Qeq_bool (tdee_value st) 0
              then [Text (tdee_first W)]
              else [Text (logged_head W); Text n; Text " - "; Number c;
                    Text (logged_tail W)])),
     {| bmi_history := bmi_history st;
        daily_calories := logged;
        tdee_value := tdee_value st |}).
Proof.
  intros H Hc Hn logged. unfold log_food_and_plot. rewrite H.
  rewrite (proj2 (Qle_bool_false_iff c 0) Hc).
  rewrite (proj2 (truthy_Some n) Hn). simpl orb.
  subst logged. cbv zeta.
  rewrite (log_food_not_empty today c (daily_calories st)).
  destruct (Qeq_bool (tdee_value st) 0); reflexivity.
Qed.

(** [sorted(daily_calories.keys())]: ascending, without repetition, and
    exactly the dates that have a total. *)
Lemma chart_dates_sorted (dc : gmap string Q) :
  StronglySorted String.le (chart_dates dc).
Proof. apply StronglySorted_merge_sort; apply _. Qed.

Lemma chart_dates_NoDup (dc : gmap string Q) : NoDup (chart_dates dc).
Proof.
  unfold chart_dates. rewrite merge_sort_Permutation.
  apply NoDup_fst_map_to_list.
Qed.

Lemma chart_dates_elem (dc : gmap string Q) (d : string) :
  d ∈ chart_dates dc <-> is_Some (dc !! d).
Proof.
  unfold chart_dates. rewrite merge_sort_Permutation, list_elem_of_fmap.
  split.
  - intros ([k v] & -> & Hin). apply elem_of_map_to_list in Hin.
    exists v. exact Hin.
  - intros [v Hv]. exists (d, v). split; [reflexivity|].
    apply elem_of_map_to_list. exact Hv.
Qed.

(** The bar at position [i] is the total of the date at position [i]. *)
Lemma chart_calories_lookup (dc : gmap string Q) (i : nat) (d : string) :
  chart_dates dc !! i = Some d -> chart_calories dc !! i = dc !! d.
Proof.
  intros Hi. unfold chart_calories. rewrite list_lookup_fmap, Hi. simpl.
  assert (d ∈ chart_dates dc) as Hin by (apply list_elem_of_lookup; eauto).
  apply chart_dates_elem in Hin as [v ->]. reflexivity.
Qed.

Lemma resolve_entry_catalog_fault (food : string)
    (manual_food_name : option string) (manual_calories : option Q) :
  food <> "Other" ->
  PyStr.int (PyStr.replace " kcal" "" (PyStr.final (PyStr.split " - " food)))
  = None ->
  resolve_entry food manual_food_name manual_calories = Raise ValueError.
Proof.
  intros Hf Hp. unfold resolve_entry.
  destruct (String.eqb_spec food "Other"); [contradiction|].
  simpl negb. rewrite Hp. reflexivity.
Qed.

Lemma resolve_entry_manual_missing (manual_food_name : option string)
    (manual_calories : option Q) :
  manual_calories = None \/ (exists c, manual_calories = Some c /\ c <= 0)
  \/ manual_food_name = None \/ manual_food_name = Some "" ->
  resolve_entry "Other" manual_food_name manual_calories = Return (0, "").
Proof.
  intros H. unfold resolve_entry. simpl.
  destruct manual_calories as [c|]; [|reflexivity].
  destruct H as [H | [(c' & Hc' & Hle) | [-> | ->]]].
  - discriminate.
  - injection Hc' as <-.
    rewrite (proj2 (Qlt_bool_false_iff 0 c) Hle). reflexivity.
  - rewrite andb_false_r. reflexivity.
  - rewrite andb_false_r. reflexivity.
Qed.

(** Every entry of both catalogs, "Other" aside, resolves to a positive
    number of calories and a name. *)
Lemma catalogs_resolve (food : string) :
  food ∈ (common_foods ++ common_foods_HCA)%list -> food <> "Other" ->
  exists (n : Z) (name : string),
    resolve_entry food None None = Return (inject_Z n, name)
    /\ (0 < n)%Z /\ name <> "".
Proof.
  intros Hin Hne.
  repeat (apply elem_of_cons in Hin as [-> | Hin];
          [first [ contradiction
                 | eexists _, _; split; [reflexivity|];
                   split; [reflexivity | discriminate] ]|]).
  inversion Hin.
Qed.

(** C3. A valid entry logged while [tdee_value] is 0 is added to today's
    total all the same, but the call returns the "calculate your TDEE
    first" placeholder and no chart; a chart (the dates in ascending
    order, the total of each and the TDEE line) comes back only, and then
    always, when [tdee_value] is not 0. *)
Theorem chart_gated_by_tdee (W : wording) (food : string)
    (manual_food_name : option string) (manual_calories : option Q)
    (today : string) (st : state) :
  (forall c n,
      resolve_entry food manual_food_name manual_calories = Return (c, n) ->
      0 < c -> n <> "" -> tdee_value st == 0 ->
      exists total st',
        log_food_and_plot W food manual_food_name manual_calories today st
        = (Return (total, EmptyPlot (tdee_first W), [Text (tdee_first W)]), st')
        /\ daily_calories st' !! today = Some total
        /\ total == default 0 (daily_calories st !! today) + c
        /\ (forall other, other <> today ->
              daily_calories st' !! other = daily_calories st !! other)
        /\ tdee_value st' = tdee_value st)
  /\ (forall total dates calories line message st',
        log_food_and_plot W food manual_food_name manual_calories today st
        = (Return (total, BarChart dates calories line, message), st') ->
        ~ tdee_value st == 0
        /\ line = tdee_value st
        /\ StronglySorted String.le dates /\ NoDup dates
        /\ (forall d, d ∈ dates <-> is_Some (daily_calories st' !! d))
        /\ (forall i d, dates !! i = Some d ->
              calories !! i = daily_calories st' !! d))
  /\ (forall c n,
        resolve_entry food manual_food_name manual_calories = Return (c, n) ->
        0 < c -> n <> "" -> ~ tdee_value st == 0 ->
        exists total dates calories message st',
          log_food_and_plot W food manual_food_name manual_calories today st
          = (Return (total, BarChart dates calories (tdee_value st), message),
             st')).
Proof.
  split; [|split].
  - intros c n Hr Hc Hn Ht.
    rewrite (log_food_and_plot_accepted W _ _ _ today st c n Hr Hc Hn).
    apply Qeq_bool_iff in Ht. rewrite Ht.
    eexists _, _. split; [reflexivity|]. simpl.
    rewrite log_food_today. split; [reflexivity|].
    split.
    { pose proof (log_food_adds today c (daily_calories st)) as Ha.
      rewrite log_food_today in Ha. exact Ha. }
    split; [|reflexivity].
    intros other Ho. apply log_food_other. exact Ho.
  - intros total dates calories line message st' Hcall.
    destruct (resolve_entry food manual_food_name manual_calories)
      as [[c n]|e] eqn:Hr.
    + destruct (Qle_bool c 0 || negb (truthy (Some n))) eqn:Hg.
      * unfold log_food_and_plot in Hcall. rewrite Hr, Hg in Hcall.
        discriminate.
      * apply orb_false_iff in Hg as [Hc Hn].
        apply Qle_bool_false_iff in Hc.
        apply negb_false_iff, truthy_Some in Hn.
        rewrite (log_food_and_plot_accepted W _ _ _ today st c n Hr Hc Hn)
          in Hcall.
        destruct (Qeq_bool (tdee_value st) 0) eqn:Ht; [discriminate|].
        apply Qeq_bool_false_iff in Ht.
        injection Hcall as _ <- <- <- _ <-. simpl.
        split; [exact Ht|]. split; [reflexivity|].
        split; [apply chart_dates_sorted|].
        split; [apply chart_dates_NoDup|].
        split; [apply chart_dates_elem | apply chart_calories_lookup].
    + rewrite (log_food_and_plot_raises W _ _ _ today st e Hr) in Hcall.
      discriminate.
  - intros c n Hr Hc Hn Ht.
    rewrite (log_food_and_plot_accepted W _ _ _ today st c n Hr Hc Hn).
    apply Qeq_bool_false_iff in Ht. rewrite Ht.
    eexists _, _, _, _, _. reflexivity.
Qed.

Lemma chart_gated_by_tdee_witness :
  resolve_entry "Rice - 130 kcal" None None = Return (130, "Rice")
  /\ 0 < 130 /\ "Rice" <> "" /\ tdee_value fresh == 0
  /\ exists total st',
      log_food_and_plot Kawaii "Rice - 130 kcal" None None "2024-01-05" fresh
      = (Return (total, EmptyPlot (tdee_first Kawaii),
                 [Text (tdee_first Kawaii)]), st')
      /\ daily_calories st' !! "2024-01-05" = Some total
      /\ total == 0 + 130.
Proof.
  assert ("Rice" <> "") as Hn by discriminate.
  split; [reflexivity|]. split; [reflexivity|]. split; [exact Hn|].
  split; [reflexivity|].
  destruct (proj1 (chart_gated_by_tdee Kawaii "Rice - 130 kcal" None None
                     "2024-01-05" fresh)
              130 "Rice" eq_refl eq_refl Hn eq_refl)
    as (total & st' & Hcall & Htoday & Hsum & _).
  exists total, st'. split; [exact Hcall|]. split; [exact Htoday|]. exact Hsum.
Defined.

(** C4, as the code has it. A selection other than "Other" whose calorie
    suffix is not an integer literal makes [log_food_and_plot] raise the
    [ValueError] of [int], with the state untouched: nothing catches it.
    The entries of both catalogs all parse, so the choices of the form
    never raise. *)
Theorem malformed_entry_raises (W : wording) (food : string)
    (manual_food_name : option string) (manual_calories : option Q)
    (today : string) (st : state) :
  (food <> "Other" ->
   PyStr.int (PyStr.replace " kcal" "" (PyStr.final (PyStr.split " - " food)))
   = None ->
   log_food_and_plot W food manual_food_name manual_calories today st
   = (Raise ValueError, st))
  /\ (food ∈ (common_foods ++ common_foods_HCA)%list ->
      exists result st',
        log_food_and_plot W food manual_food_name manual_calories today st
        = (Return result, st')).
Proof.
  split.
  - intros Hf Hp. apply log_food_and_plot_raises.
    apply resolve_entry_catalog_fault; assumption.
  - intros Hin. destruct (String.eqb_spec food "Other") as [-> | Hne].
    + unfold log_food_and_plot.
      destruct (resolve_entry "Other" manual_food_name manual_calories)
        as [[c n]|e] eqn:Hr.
      * repeat match goal with
               | |- context [if ?b then _ else _] => destruct b
               end; eexists _, _; reflexivity.
      * unfold resolve_entry in Hr. simpl in Hr.
        repeat match type of Hr with
               | context [match ?x with _ => _ end] => destruct x
               end; discriminate.
    + destruct (catalogs_resolve food Hin Hne) as (k & name & Hr & Hk & Hn).
      assert (resolve_entry food manual_food_name manual_calories
              = Return (inject_Z k, name)) as Hr'.
      { unfold resolve_entry in *.
        destruct (String.eqb_spec food "Other"); [contradiction|].
        exact Hr. }
      assert (0 < inject_Z k) as Hpos
        by (change 0 with (inject_Z 0); rewrite <- Zlt_Qlt; exact Hk).
      rewrite (log_food_and_plot_accepted W _ _ _ today st _ _ Hr' Hpos Hn).
      eexists _, _. reflexivity.
Qed.

Lemma malformed_entry_raises_witness :
  "Water - zero kcal" <> "Other"
  /\ PyStr.int (PyStr.replace " kcal" ""
                  (PyStr.final (PyStr.split " - " "Water - zero kcal")))
     = None
  /\ log_food_and_plot HCA "Water - zero kcal" None None "2024-01-05" fresh
     = (Raise ValueError, fresh).
Proof.
  assert ("Water - zero kcal" <> "Other") as Hf by discriminate.
  split; [exact Hf|]. split; [reflexivity|].
  exact (proj1 (malformed_entry_raises HCA "Water - zero kcal" None None
                  "2024-01-05" fresh) Hf eq_refl).
Defined.

(** The claim C4 fails on the code: this selection is not "Other", its
    suffix is no integer, and the call returns no result at all. *)
Lemma malformed_entry_returns_nothing :
  "Water - zero kcal" <> "Other"
  /\ PyStr.int (PyStr.replace " kcal" ""
                  (PyStr.final (PyStr.split " - " "Water - zero kcal")))
     = None
  /\ returned (log_food_and_plot Kawaii "Water - zero kcal" None None
                 "2024-01-05" fresh) = None
  /\ log_food_and_plot Kawaii "Water - zero kcal" None None "2024-01-05" fresh
     = (Raise ValueError, fresh).
Proof.
  split; [discriminate|]. repeat split; reflexivity.
Qed.

(** C6. When the resolved calories are not positive or the resolved name
    is empty, and so whenever the selection is "Other" and the manual
    calories are missing or not positive or the manual name is missing or
    empty, [log_food_and_plot] returns today's total as it stands, the
    blank figure and the message asking for a valid entry, raises
    nothing and hands back the state it received. *)
Theorem invalid_entry_fails_softly (W : wording) (food : string)
    (manual_food_name : option string) (manual_calories : option Q)
    (today : string) (st : state) :
  (forall c n,
      resolve_entry food manual_food_name manual_calories = Return (c, n) ->
      c <= 0 \/ n = "" ->
      log_food_and_plot W food manual_food_name manual_calories today st
      = (Return (default 0 (daily_calories st !! today),
                 EmptyPlot (invalid_log W), [Text (invalid_log W)]), st))
  /\ (food = "Other" ->
      manual_calories = None \/ (exists c, manual_calories = Some c /\ c <= 0)
      \/ manual_food_name = None \/ manual_food_name = Some "" ->
      log_food_and_plot W food manual_food_name manual_calories today st
      = (Return (default 0 (daily_calories st !! today),
                 EmptyPlot (invalid_log W), [Text (invalid_log W)]), st)).
Proof.
  split.
  - intros c n Hr Hbad. apply (log_food_and_plot_rejected W _ _ _ _ _ c n Hr Hbad).
  - intros -> Hm.
    apply (log_food_and_plot_rejected W _ _ _ _ _ 0 "").
    + apply resolve_entry_manual_missing. exact Hm.
    + right. reflexivity.
Qed.

Lemma invalid_entry_fails_softly_witness :
  (Some (-20) = None \/ (exists c, Some (-20) = Some c /\ c <= 0)
   \/ Some "Tea" = None \/ Some "Tea" = Some "")
  /\ log_food_and_plot Kawaii "Other" (Some "Tea") (Some (-20)) "2024-01-04"
       sample_state
     = (Return (1800, EmptyPlot (invalid_log Kawaii),
                [Text (invalid_log Kawaii)]), sample_state).
Proof.
  assert (Some (-20) = None \/ (exists c, Some (-20) = Some c /\ c <= 0)
          \/ Some "Tea" = None \/ Some "Tea" = Some "") as Hm.
  { right. left. exists (-20). split; [reflexivity | discriminate]. }
  split; [exact Hm|].
  exact (proj2 (invalid_entry_fails_softly Kawaii "Other" (Some "Tea")
                  (Some (-20)) "2024-01-04" sample_state) eq_refl Hm).
Defined.

(** C7, as the code has it. A successful call adds the resolved calories
    to today's total, starting it when today has none, returns the new
    total and leaves every other date, the BMI history and the TDEE as
    they were. The message naming the food and the amount is returned
    when [tdee_value] is not 0; while it is 0 the message is the
    "calculate your TDEE first" placeholder. Logging 500 kcal and then
    90 kcal on one day adds 590 to that day and changes no other day. *)
Theorem successful_log_accumulates (W : wording) (today : string) (st : state) :
  (forall food manual_food_name manual_calories c n,
      resolve_entry food manual_food_name manual_calories = Return (c, n) ->
      0 < c -> n <> "" ->
      exists total figure message st',
        log_food_and_plot W food manual_food_name manual_calories today st
        = (Return (total, figure, message), st')
        /\ daily_calories st' !! today = Some total
        /\ (forall old, daily_calories st !! today = Some old ->
              total = old + c)
        /\ (daily_calories st !! today = None -> total = c)
        /\ (forall other, other <> today ->
              daily_calories st' !! other = daily_calories st !! other)
        /\ bmi_history st' = bmi_history st
        /\ tdee_value st' = tdee_value st
        /\ (~ tdee_value st == 0 ->
            message = [Text (logged_head W); Text n; Text " - "; Number c;
                       Text (logged_tail W)])
        /\ (tdee_value st == 0 -> message = [Text (tdee_first W)]))
  /\ (exists total1 figure1 message1 st1 total2 figure2 message2 st2,
        log_food_and_plot W "Chicken with bazil - 500 kcal" None None today st
        = (Return (total1, figure1, message1), st1)
        /\ log_food_and_plot W "Tom Yum Kung - 90 kcal" None None today st1
           = (Return (total2, figure2, message2), st2)
        /\ daily_calories st2 !! today = Some total2
        /\ total2 == default 0 (daily_calories st !! today) + 590
        /\ (daily_calories st !! today = None -> total2 = 590)
        /\ (forall other, other <> today ->
              daily_calories st2 !! other = daily_calories st !! other)).
Proof.
  split.
  - intros food manual_food_name manual_calories c n Hr Hc Hn.
    rewrite (log_food_and_plot_accepted W _ _ _ today st c n Hr Hc Hn).
    eexists _, _, _, _. split; [reflexivity|]. simpl.
    rewrite log_food_today.
    split; [reflexivity|].
    split; [intros old ->; reflexivity|].
    split; [intros ->; reflexivity|].
    split; [intros other Ho; apply log_food_other; exact Ho|].
    split; [reflexivity|]. split; [reflexivity|].
    split.
    + intros Ht. apply Qeq_bool_false_iff in Ht. rewrite Ht. reflexivity.
    + intros Ht. apply Qeq_bool_iff in Ht. rewrite Ht. reflexivity.
  - assert ("Chicken with bazil" <> "") as Hn1 by discriminate.
    assert ("Tom Yum Kung" <> "") as Hn2 by discriminate.
    rewrite (log_food_and_plot_accepted W "Chicken with bazil - 500 kcal"
               None None today st 500 "Chicken with bazil"
               eq_refl eq_refl Hn1).
    eexists _, _, _, _, _, _, _, _. split; [reflexivity|].
    rewrite (log_food_and_plot_accepted W "Tom Yum Kung - 90 kcal"
               None None today _ 90 "Tom Yum Kung" eq_refl eq_refl Hn2).
    split; [reflexivity|]. simpl.
    rewrite !log_food_today.
    split; [reflexivity|].
    split; [destruct (daily_calories st !! today); simpl; lra|].
    split; [intros ->; reflexivity|].
    intros other Ho. rewrite !log_food_other by exact Ho. reflexivity.
Qed.

Lemma successful_log_accumulates_witness :
  resolve_entry "Other" (Some "Tea") (Some 35) = Return (35, "Tea")
  /\ 0 < 35 /\ "Tea" <> "" /\ ~ tdee_value sample_state == 0
  /\ exists figure st',
      log_food_and_plot Kawaii "Other" (Some "Tea") (Some 35) "2024-01-05"
        sample_state
      = (Return (35, figure,
                 [Text (logged_head Kawaii); Text "Tea"; Text " - "; Number 35;
                  Text (logged_tail Kawaii)]), st')
      /\ daily_calories st' !! "2024-01-05" = Some 35
      /\ daily_calories st' !! "2024-01-04" = Some 1800.
Proof.
  assert ("Tea" <> "") as Hn by discriminate.
  assert (~ tdee_value sample_state == 0) as Ht by discriminate.
  assert ("2024-01-04" <> "2024-01-05") as Hd by discriminate.
  split; [reflexivity|]. split; [reflexivity|]. split; [exact Hn|].
  split; [exact Ht|].
  destruct (proj1 (successful_log_accumulates Kawaii "2024-01-05" sample_state)
              "Other" (Some "Tea") (Some 35) 35 "Tea" eq_refl eq_refl Hn)
    as (total & figure & message & st' & Hcall & Htoday & _ & Hnew & Hother
        & _ & _ & Hmsg & _).
  rewrite (Hnew eq_refl) in *. rewrite (Hmsg Ht) in Hcall.
  exists figure, st'. split; [exact Hcall|]. split; [exact Htoday|].
  rewrite (Hother "2024-01-04" Hd). reflexivity.
Defined.

(** The claim C7 fails on the code: this entry is logged, 130 kcal under
    the name "Rice", yet with [tdee_value] at 0 the message that comes
    back is the placeholder, not the one naming the food and the
    amount. *)
Lemma success_message_withheld :
  resolve_entry "Rice - 130 kcal" None None = Return (130, "Rice")
  /\ (exists figure st',
        log_food_and_plot Kawaii "Rice - 130 kcal" None None "2024-01-05" fresh
        = (Return (130, figure, [Text (tdee_first Kawaii)]), st')
        /\ daily_calories st' !! "2024-01-05" = Some 130)
  /\ [Text (tdee_first Kawaii)]
     <> [Text (logged_head Kawaii); Text "Rice"; Text " - "; Number 130;
         Text (logged_tail Kawaii)].
Proof.
  split; [reflexivity|].
  split; [eexists _, _; split; reflexivity | discriminate].
Qed.

(** * Further properties *)

(** ** The BMI calculator, on every input *)

(** Membership in a list written out, and its refutation. *)
Ltac listed :=
  repeat first [ apply list_elem_of_here | apply list_elem_of_further ].

Ltac unlisted H :=
  repeat (apply elem_of_cons in H as [H | H]; [discriminate H|]);
  inversion H.

Lemma bmi_category_label (bmi : Q) :
  bmi_category bmi ∈ ["Underweight"; "Normal weight"; "Overweight"; "Obese"].
Proof.
  unfold bmi_category.
  repeat match goal with
         | |- context [if ?b then _ else _] => destruct b
         end; listed.
Qed.

(** The two ways a call can go: it records, or it is refused and hands
    back the state it received. *)
Lemma calculate_and_track_bmi_cases (W : wording) (height weight : Q)
    (units date_str : string) (st : state) :
  (exists dt bmi,
      0 < height /\ 0 < weight /\ PyDate.strptime date_str = Some dt
      /\ calculate_and_track_bmi W height weight units date_str st
         = (Return (bmi, bmi_category bmi,
                    [Text "Your BMI is "; Number bmi; Text ". Category: ";
                     Text (bmi_category bmi); Text (bmi_tail W)]),
            {| bmi_history := <[PyDate.strftime dt := bmi]> (bmi_history st);
               daily_calories := daily_calories st;
               tdee_value := tdee_value st |}))
  \/ ((height <= 0 \/ weight <= 0)
      /\ calculate_and_track_bmi W height weight units date_str st
         = (Return (0, "Invalid input",
                    [Text "Please enter positive values for height and weight."]),
            st))
  \/ (0 < height /\ 0 < weight /\ PyDate.strptime date_str = None
      /\ calculate_and_track_bmi W height weight units date_str st
         = (Return (0, "Invalid date format",
                    [Text "Please enter date in YYYY-MM-DD format."]),
            st)).
Proof.
  destruct (Qlt_le_dec 0 height) as [Hh | Hh].
  - destruct (Qlt_le_dec 0 weight) as [Hw | Hw].
    + destruct (PyDate.strptime date_str) as [dt|] eqn:Hd.
      * left. eexists dt, _. split; [exact Hh|]. split; [exact Hw|].
        split; [reflexivity|].
        apply (calculate_and_track_bmi_ok W _ _ units _ dt st Hh Hw Hd).
      * right. right. split; [exact Hh|]. split; [exact Hw|].
        split; [reflexivity|].
        apply calculate_and_track_bmi_invalid_date; assumption.
    + right. left. split; [right; exact Hw|].
      apply calculate_and_track_bmi_invalid_input. right. exact Hw.
  - right. left. split; [left; exact Hh|].
    apply calculate_and_track_bmi_invalid_input. left. exact Hh.
Qed.

Lemma bmi_call_rest (W : wording) (height weight : Q)
    (units date_str : string) (st : state) :
  daily_calories (calculate_and_track_bmi W height weight units date_str st).2
  = daily_calories st
  /\ tdee_value (calculate_and_track_bmi W height weight units date_str st).2
     = tdee_value st.
Proof.
  destruct (calculate_and_track_bmi_cases W height weight units date_str st)
    as [(dt & bmi & _ & _ & _ & ->) | [[_ ->] | (_ & _ & _ & ->)]];
    split; reflexivity.
Qed.

(** X1. Whatever its inputs, [calculate_and_track_bmi] leaves the food
    totals and the TDEE alone and writes at most one key of the history;
    no date that had a BMI loses it. *)
Theorem bmi_click_frame (W : wording) (height weight : Q)
    (units date_str : string) (st : state) :
  let st' := (calculate_and_track_bmi W height weight units date_str st).2 in
  daily_calories st' = daily_calories st
  /\ tdee_value st' = tdee_value st
  /\ (bmi_history st' = bmi_history st
      \/ exists key v, bmi_history st' = <[key := v]> (bmi_history st))
  /\ (forall k, is_Some (bmi_history st !! k) -> is_Some (bmi_history st' !! k)).
Proof.
  destruct (calculate_and_track_bmi_cases W height weight units date_str st)
    as [(dt & bmi & _ & _ & _ & ->) | [[_ ->] | (_ & _ & _ & ->)]]; simpl.
  - split; [reflexivity|]. split; [reflexivity|].
    split; [right; eauto|].
    intros k Hk. rewrite lookup_insert. case_decide; [eauto | exact Hk].
  - repeat split; auto.
  - repeat split; auto.
Qed.

(** X2. When [calculate_and_track_bmi] returns, the category tells the
    three outcomes apart. It is "Invalid input" exactly when a number is
    not positive. It is "Invalid date format" only for a date that
    [strptime] refused. With either of the two the BMI returned is 0 and
    the state is the one received. Any other category is one of the four
    BMI labels, the one that the thresholds give for the returned BMI,
    and the history then holds that BMI under one key, its other keys as
    they were. *)
Theorem bmi_category_tells_outcome (W : wording) (height weight : Q)
    (units date_str : string) (st : state) (bmi : Q) (category : string)
    (message : text) (st' : state) :
  calculate_and_track_bmi W height weight units date_str st
  = (Return (bmi, category, message), st') ->
  (category = "Invalid input" <-> height <= 0 \/ weight <= 0)
  /\ (category = "Invalid date format" -> PyDate.strptime date_str = None)
  /\ (category = "Invalid input" \/ category = "Invalid date format" ->
      bmi = 0 /\ st' = st)
  /\ (category <> "Invalid input" -> category <> "Invalid date format" ->
      category ∈ ["Underweight"; "Normal weight"; "Overweight"; "Obese"]
      /\ category = bmi_category bmi
      /\ exists key, bmi_history st' = <[key := bmi]> (bmi_history st)).
Proof.
  intros Hcall.
  destruct (calculate_and_track_bmi_cases W height weight units date_str st)
    as [(dt & b & Hh & Hw & Hd & E) | [[Hbad E] | (Hh & Hw & Hd & E)]];
    rewrite E in Hcall; injection Hcall as <- <- <- <-.
  - pose proof (bmi_category_label b) as Hl.
    split; [split|].
    + intros E'. rewrite E' in Hl. unlisted Hl.
    + intros [H | H]; lra.
    + split; [intros E'; rewrite E' in Hl; unlisted Hl|].
      split.
      * intros [E' | E']; rewrite E' in Hl; unlisted Hl.
      * intros _ _. split; [exact Hl|]. split; [reflexivity|].
        eexists. reflexivity.
  - split; [split; [intros _; exact Hbad | reflexivity]|].
    split; [discriminate|].
    split; [intros _; split; reflexivity|].
    intros H. contradiction H. reflexivity.
  - split; [split; [discriminate | intros [H | H]; lra]|].
    split; [intros _; exact Hd|].
    split; [intros _; split; reflexivity|].
    intros _ H. contradiction H. reflexivity.
Qed.

(** X3. Clicking twice with the same inputs is the same as clicking
    once: the second call returns what the first returned and leaves the
    state the first one left. *)
Theorem bmi_click_twice (W : wording) (height weight : Q)
    (units date_str : string) (st : state) :
  calculate_and_track_bmi W height weight units date_str
    (calculate_and_track_bmi W height weight units date_str st).2
  = calculate_and_track_bmi W height weight units date_str st.
Proof.
  destruct (calculate_and_track_bmi_cases W height weight units date_str st)
    as [(dt & bmi & Hh & Hw & Hd & E) | [[Hbad E] | (Hh & Hw & Hd & E)]].
  - rewrite E. simpl.
    rewrite (calculate_and_track_bmi_ok W _ _ units _ dt _ Hh Hw Hd).
    rewrite (calculate_and_track_bmi_ok W _ _ units _ dt st Hh Hw Hd) in E.
    injection E as <-. simpl. rewrite insert_insert_eq. reflexivity.
  - rewrite E. simpl. exact E.
  - rewrite E. simpl. exact E.
Qed.

(** The one-key write of [bmi_step], read off the call alone. *)
Lemma bmi_step_cases (W : wording) (c : bmi_call) :
  (exists key bmi,
      records_on key c
      /\ forall st, bmi_step W st c
                    = {| bmi_history := <[key := bmi]> (bmi_history st);
                         daily_calories := daily_calories st;
                         tdee_value := tdee_value st |})
  \/ (forall st, bmi_step W st c = st).
Proof.
  unfold bmi_step.
  destruct (Qlt_le_dec 0 (call_height c)) as [Hh | Hh].
  - destruct (Qlt_le_dec 0 (call_weight c)) as [Hw | Hw].
    + destruct (PyDate.strptime (call_date c)) as [dt|] eqn:Hd.
      * left. eexists (PyDate.strftime dt), _. split.
        { split; [exact Hh|]. split; [exact Hw|]. exists dt. split; [exact Hd|].
          reflexivity. }
        intros st.
        rewrite (calculate_and_track_bmi_ok W _ _ (call_units c) _ dt st Hh Hw Hd).
        reflexivity.
      * right. intros st.
        rewrite calculate_and_track_bmi_invalid_date by assumption. reflexivity.
    + right. intros st.
      rewrite calculate_and_track_bmi_invalid_input by (right; exact Hw).
      reflexivity.
  - right. intros st.
    rewrite calculate_and_track_bmi_invalid_input by (left; exact Hh).
    reflexivity.
Qed.

Lemma records_on_key (k1 k2 : string) (c : bmi_call) :
  records_on k1 c -> records_on k2 c -> k1 = k2.
Proof.
  intros (_ & _ & d1 & H1 & <-) (_ & _ & d2 & H2 & <-). congruence.
Qed.

(** X4. Two clicks that do not record under the same date can be made in
    either order: the state afterwards is the same. *)
Theorem bmi_clicks_commute (W : wording) (c1 c2 : bmi_call) (st : state) :
  (forall key, records_on key c1 -> records_on key c2 -> False) ->
  bmi_step W (bmi_step W st c1) c2 = bmi_step W (bmi_step W st c2) c1.
Proof.
  intros Hdiff.
  destruct (bmi_step_cases W c1) as [(k1 & b1 & Hr1 & E1) | E1];
    destruct (bmi_step_cases W c2) as [(k2 & b2 & Hr2 & E2) | E2];
    rewrite ?E1, ?E2; try reflexivity.
  simpl. f_equal. apply insert_insert_ne.
  intros E. subst k2. exact (Hdiff k1 Hr1 Hr2).
Qed.

Lemma bmi_clicks_commute_witness :
  (forall key,
      records_on key morning_call ->
      records_on key {| call_height := 170; call_weight := 71;
                        call_units := "cm/kg"; call_date := "2024-01-06" |} ->
      False)
  /\ bmi_history
       (bmi_step Kawaii (bmi_step Kawaii fresh morning_call)
          {| call_height := 170; call_weight := 71; call_units := "cm/kg";
             call_date := "2024-01-06" |})
     = bmi_history
         (bmi_step Kawaii
            (bmi_step Kawaii fresh
               {| call_height := 170; call_weight := 71; call_units := "cm/kg";
                  call_date := "2024-01-06" |})
            morning_call).
Proof.
  assert (forall key,
             records_on key morning_call ->
             records_on key {| call_height := 170; call_weight := 71;
                               call_units := "cm/kg";
                               call_date := "2024-01-06" |} ->
             False) as Hdiff.
  { intros key (_ & _ & d1 & H1 & K1) (_ & _ & d2 & H2 & K2).
    vm_compute in H1, H2. injection H1 as <-. injection H2 as <-.
    vm_compute in K1, K2. congruence. }
  split; [exact Hdiff|].
  rewrite (bmi_clicks_commute Kawaii morning_call _ fresh Hdiff). reflexivity.
Defined.

(** Rounding keeps the order. *)
Lemma round_half_even_mono (q1 q2 : Q) :
  q1 <= q2 -> (PyNum.round_half_even q1 <= PyNum.round_half_even q2)%Z.
Proof.
  intros H. pose proof (Qfloor_resp_le _ _ H) as Hf.
  destruct (floor_bounds q1) as [L1 U1]. destruct (floor_bounds q2) as [L2 U2].
  unfold PyNum.round_half_even.
  destruct (Z.eq_dec (Qfloor q1) (Qfloor q2)) as [E | NE].
  - rewrite <- E in *.
    destruct (Qcompare (q1 - inject_Z (Qfloor q1)) (1 # 2)) eqn:E1;
      destruct (Qcompare (q2 - inject_Z (Qfloor q1)) (1 # 2)) eqn:E2;
      first [ apply Qeq_alt in E1 | apply Qlt_alt in E1 | apply Qgt_alt in E1 ];
      first [ apply Qeq_alt in E2 | apply Qlt_alt in E2 | apply Qgt_alt in E2 ];
      destruct (Z.even (Qfloor q1)); try lia; exfalso; lra.
  - destruct (Qcompare (q1 - inject_Z (Qfloor q1)) (1 # 2));
      destruct (Qcompare (q2 - inject_Z (Qfloor q2)) (1 # 2));
      destruct (Z.even (Qfloor q1)); destruct (Z.even (Qfloor q2)); lia.
Qed.

Lemma round2_mono (q1 q2 : Q) : q1 <= q2 -> PyNum.round2 q1 <= PyNum.round2 q2.
Proof.
  intros H. unfold PyNum.round2.
  assert (q1 * 100 <= q2 * 100) as H' by lra.
  pose proof (round_half_even_mono _ _ H') as Hz.
  unfold Qle. simpl. lia.
Qed.

(** The quotient weight / height^2 grows with the weight and shrinks
    with the height. *)
Lemma quotient_mono (h1 h2 w1 w2 : Q) :
  0 < h2 -> h2 <= h1 -> 0 <= w1 -> w1 <= w2 ->
  w1 / (h1 / 100) ^ 2 <= w2 / (h2 / 100) ^ 2.
Proof.
  intros Hh2 Hh Hw1 Hw.
  change ((h1 / 100) ^ 2) with ((h1 / 100) * (h1 / 100)).
  change ((h2 / 100) ^ 2) with ((h2 / 100) * (h2 / 100)).
  unfold Qdiv at 2 3 5 6. change (/ 100) with (1 # 100).
  set (a := h2 * (1 # 100)). set (b := h1 * (1 # 100)).
  assert (0 < a) as Ha by (subst a; lra).
  assert (a <= b) as Hab by (subst a b; lra).
  assert (0 < a * a) as Haa by (apply Qmult_lt_0_compat; exact Ha).
  assert (a * a <= b * b) as Hsq.
  { nra. }
  assert (0 < b * b) as Hbb by lra.
  apply Qle_shift_div_r; [exact Hbb|].
  apply Qle_trans with (w2 / (a * a) * (a * a)).
  - rewrite Qmult_comm, Qmult_div_r by lra. exact Hw.
  - rewrite !(Qmult_comm (w2 / (a * a))).
    apply Qmult_le_compat_r; [exact Hsq|].
    apply Qle_shift_div_l; lra.
Qed.





(** ** The energy calculator, on every input and on the form's inputs *)

(** The state after [calculate_bmr_tdee], in one equation. *)
Lemma energy_call_state (W : wording) (age : Q) (gender : string)
    (height weight : Q) (activity_level : string) (st : state) :
  (calculate_bmr_tdee W age gender height weight activity_level st).2
  = if Qle_bool age 0 || Qle_bool height 0 || Qle_bool weight 0 then st
    else {| bmi_history := bmi_history st;
            daily_calories := daily_calories st;
            tdee_value :=
              (if String.eqb gender "Male"
               then 66.5 + 13.75 * weight + 5.003 * height - 6.75 * age
               else 655.1 + 9.563 * weight + 1.850 * height - 4.676 * age)
              * dict_get activity_multipliers activity_level 1.2 |}.
Proof.
  unfold calculate_bmr_tdee.
  destruct (Qle_bool age 0 || Qle_bool height 0 || Qle_bool weight 0);
    reflexivity.
Qed.

(** X7. [calculate_bmr_tdee] never touches the BMI history or the food
    totals. With an input that is not positive the whole state stays as
    it is; when the call returns on positive inputs, the TDEE it returns
    has replaced the stored one, whatever that was. *)
Theorem energy_click_frame (W : wording) (age : Q) (gender : string)
    (height weight : Q) (activity_level : string) (st : state) :
  let r := calculate_bmr_tdee W age gender height weight activity_level st in
  bmi_history r.2 = bmi_history st
  /\ daily_calories r.2 = daily_calories st
  /\ (age <= 0 \/ height <= 0 \/ weight <= 0 -> r.2 = st)
  /\ (forall bmr tdee maintenance loss gain message,
        0 < age -> 0 < height -> 0 < weight ->
        r.1 = Return (bmr, tdee, maintenance, loss, gain, message) ->
        tdee_value r.2 = tdee).
Proof.
  cbv zeta.
  split; [|split; [|split]].
  - rewrite energy_call_state.
    destruct (Qle_bool age 0 || Qle_bool height 0 || Qle_bool weight 0);
      reflexivity.
  - rewrite energy_call_state.
    destruct (Qle_bool age 0 || Qle_bool height 0 || Qle_bool weight 0);
      reflexivity.
  - intros H. rewrite energy_call_state.
    rewrite (energy_guard_fails age height weight H). reflexivity.
  - intros bmr tdee maintenance loss gain message Ha Hh Hw.
    unfold calculate_bmr_tdee.
    rewrite (energy_guard_passes age height weight Ha Hh Hw). simpl.
    intros E. injection E as _ <- _ _ _ _. reflexivity.
Qed.

(** X8. For the same person, the TDEE grows with the activity level when
    the BMR is positive, from "Sedentary" up to "Extra active"; with a
    negative BMR the order is reversed. *)
Theorem activity_levels_ordered (W : wording) (age : Q) (gender : string)
    (height weight : Q) (st : state) :
  0 < age -> 0 < height -> 0 < weight ->
  exists bmr t1 t2 t3 t4 t5,
    (forall level t,
        (level, t) ∈ [ ("Sedentary (little to no exercise)", t1);
                       ("Lightly active (1-3 days/week)", t2);
                       ("Moderately active (3-5 days/week)", t3);
                       ("Very active (6-7 days/week)", t4);
                       ("Extra active (daily intense exercise)", t5) ] ->
        returned (calculate_bmr_tdee W age gender height weight level st)
        = Some (bmr, t, t, t - 500, t + 500, [Text (energy_done W)]))
    /\ (0 < bmr -> t1 < t2 /\ t2 < t3 /\ t3 < t4 /\ t4 < t5)
    /\ (bmr < 0 -> t5 < t4 /\ t4 < t3 /\ t3 < t2 /\ t2 < t1).
Proof.
  intros Ha Hh Hw.
  eexists _, _, _, _, _, _. split; [|split].
  - intros level t Hin. unfold returned, calculate_bmr_tdee.
    rewrite (energy_guard_passes age height weight Ha Hh Hw).
    repeat (apply elem_of_cons in Hin as [Hin | Hin];
            [injection Hin as -> ->; reflexivity|]).
    inversion Hin.
  - simpl. intros Hb. repeat split; lra.
  - simpl. intros Hb. repeat split; lra.
Qed.

Lemma activity_levels_ordered_witness :
  0 < 30 /\ 0 < 170 /\ 0 < 70
  /\ exists bmr t1 t5,
      returned (calculate_bmr_tdee Kawaii 30 "Female" 170 70
                  "Sedentary (little to no exercise)" fresh)
      = Some (bmr, t1, t1, t1 - 500, t1 + 500, [Text (energy_done Kawaii)])
      /\ returned (calculate_bmr_tdee Kawaii 30 "Female" 170 70
                     "Extra active (daily intense exercise)" fresh)
         = Some (bmr, t5, t5, t5 - 500, t5 + 500, [Text (energy_done Kawaii)])
      /\ t1 < t5.
Proof.
  split; [reflexivity|]. split; [reflexivity|]. split; [reflexivity|].
  destruct (activity_levels_ordered Kawaii 30 "Female" 170 70 fresh
              eq_refl eq_refl eq_refl)
    as (bmr & t1 & t2 & t3 & t4 & t5 & Hret & Hup & _).
  exists bmr, t1, t5.
  split; [apply Hret; listed|]. split; [apply Hret; listed|].
  pose proof (Hret _ _ (list_elem_of_here _ _)) as H1.
  vm_compute in H1. injection H1 as <- <-.
  destruct (Hup eq_refl) as (H12 & H23 & H34 & H45).
  apply Qlt_trans with t2; [exact H12|].
  apply Qlt_trans with t3; [exact H23|].
  apply Qlt_trans with t4; [exact H34 | exact H45].
Defined.

(** What a slider sends lies in its range, a whole number of steps above
    the minimum. *)
Lemma slider_spec (minimum maximum step value : Q) :
  0 < step -> slider minimum maximum step value = true ->
  exists k : Z,
    value == minimum + inject_Z k * step
    /\ 0 <= inject_Z k * step /\ inject_Z k * step <= maximum - minimum.
Proof.
  intros Hs H. unfold slider in H.
  apply andb_true_iff in H as [H Hk]. apply andb_true_iff in H as [Hlo Hhi].
  apply Qle_bool_iff in Hlo, Hhi. apply Pos.eqb_eq in Hk.
  pose proof (Qred_correct ((value - minimum) / step)) as Hr.
  destruct (Qred ((value - minimum) / step)) as [n d]. simpl in Hk. subst d.
  exists n.
  assert (value - minimum == inject_Z n * step) as E.
  { change (n # 1) with (inject_Z n) in Hr. rewrite Hr.
    unfold Qdiv. rewrite <- Qmult_assoc, (Qmult_comm (/ step)).
    rewrite Qmult_inv_r by lra. ring. }
  split; [lra|]. split; lra.
Qed.

(** Whole-number constants under [inject_Z], written as numbers. *)
Ltac literals :=
  repeat match goal with
         | |- context [inject_Z (Z.pos ?p)] =>
             change (inject_Z (Z.pos p)) with (Z.pos p # 1)
         | |- context [inject_Z 0%Z] => change (inject_Z 0%Z) with 0
         | H : context [inject_Z (Z.pos ?p)] |- _ =>
             change (inject_Z (Z.pos p)) with (Z.pos p # 1) in H
         end.

Lemma inject_Z_bounds (k lo hi : Z) :
  inject_Z lo <= inject_Z k -> inject_Z k <= inject_Z hi -> (lo <= k <= hi)%Z.
Proof. rewrite <- !Zle_Qle. lia. Qed.

(** What the sliders of Tab 2 send, in whole numbers: the age, the
    height and ten times the weight. *)
Lemma energy_form_values (age : Q) (gender : string) (height weight : Q)
    (activity_level : string) :
  energy_form age gender height weight activity_level = true ->
  (exists a h w : Z,
      age == inject_Z a /\ height == inject_Z h
      /\ weight == inject_Z w * (1 # 10)
      /\ (10 <= a <= 100)%Z /\ (50 <= h <= 250)%Z /\ (200 <= w <= 2000)%Z)
  /\ (gender = "Male" \/ gender = "Female")
  /\ activity_level ∈ activity_choices.
Proof.
  unfold energy_form. intros H.
  apply andb_true_iff in H as [H H0]. apply andb_true_iff in H as [H H1].
  apply andb_true_iff in H as [H H2]. apply andb_true_iff in H as [H H3].
  destruct (slider_spec 10 100 1 age eq_refl H) as (ka & Ea & La & Ua).
  destruct (slider_spec 50 250 1 height eq_refl H2) as (kh & Eh & Lh & Uh).
  destruct (slider_spec 20 200 0.1 weight eq_refl H1) as (kw & Ew & Lw & Uw).
  split; [|split].
  - exists (10 + ka)%Z, (50 + kh)%Z, (200 + kw)%Z.
    rewrite !inject_Z_plus. literals.
    split; [lra|]. split; [lra|]. split; [lra|].
    assert (0 <= ka <= 90)%Z by (apply inject_Z_bounds; literals; lra).
    assert (0 <= kh <= 200)%Z by (apply inject_Z_bounds; literals; lra).
    assert (0 <= kw <= 1800)%Z by (apply inject_Z_bounds; literals; lra).
    lia.
  - apply orb_true_iff in H3 as [E | E]; apply String.eqb_eq in E; auto.
  - apply existsb_exists in H0 as (l & Hin & E).
    apply String.eqb_eq in E. subst l. apply list_elem_of_In. exact Hin.
Qed.

Lemma listed_multiplier (activity_level : string) :
  activity_level ∈ activity_choices ->
  dict_get activity_multipliers activity_level 1.2
  ∈ [1.2; 1.375; 1.55; 1.725; 1.9].
Proof.
  intros Hin.
  repeat (apply elem_of_cons in Hin as [-> | Hin]; [listed|]).
  inversion Hin.
Qed.

(** The BMR of a man cannot be 0 on the sliders' values. *)
Lemma male_bmr_nonzero (a h w : Z) :
  (10 <= a <= 100)%Z -> (50 <= h <= 250)%Z -> (200 <= w <= 2000)%Z ->
  ~ 66.5 + 13.75 * (inject_Z w * (1 # 10)) + 5.003 * inject_Z h
    - 6.75 * inject_Z a == 0.
Proof.
  intros Ha Hh Hw E.
  assert (inject_Z (66500 + 1375 * w + 5003 * h - 6750 * a) == 0) as Ez.
  { unfold Zminus. rewrite !inject_Z_plus, inject_Z_opp, !inject_Z_mult.
    literals. lra. }
  unfold Qeq in Ez. simpl in Ez. lia.
Qed.

(** On those values the input check passes and the TDEE is not 0. *)
Lemma energy_form_nonzero (age : Q) (gender : string) (height weight : Q)
    (activity_level : string) :
  energy_form age gender height weight activity_level = true ->
  Qle_bool age 0 || Qle_bool height 0 || Qle_bool weight 0 = false
  /\ ~ (if String.eqb gender "Male"
        then 66.5 + 13.75 * weight + 5.003 * height - 6.75 * age
        else 655.1 + 9.563 * weight + 1.850 * height - 4.676 * age)
       * dict_get activity_multipliers activity_level 1.2 == 0.
Proof.
  intros Hform.
  destruct (energy_form_values _ _ _ _ _ Hform)
    as ((a & h & w & Ea & Eh & Ew & Ha & Hh & Hw) & Hg & Hl).
  assert (0 < age /\ 0 < height /\ 0 < weight) as (Pa & Ph & Pw).
  { assert (inject_Z 10 <= inject_Z a) by (rewrite <- Zle_Qle; lia).
    assert (inject_Z 50 <= inject_Z h) by (rewrite <- Zle_Qle; lia).
    assert (inject_Z 200 <= inject_Z w) by (rewrite <- Zle_Qle; lia).
    literals. repeat split; lra. }
  split; [apply energy_guard_passes; assumption|].
  pose proof (listed_multiplier activity_level Hl) as Hm.
  set (m := dict_get activity_multipliers activity_level 1.2) in *.
  assert (0 < m) as Pm.
  { clearbody m.
    repeat (apply elem_of_cons in Hm as [-> | Hm]; [reflexivity|]).
    inversion Hm. }
  intros E. apply Qmult_integral in E as [E | E]; [|lra].
  destruct Hg as [-> | ->]; simpl in E.
  - apply (male_bmr_nonzero a h w Ha Hh Hw). rewrite <- Ea, <- Eh, <- Ew.
    exact E.
  - assert (inject_Z a <= inject_Z 100) by (rewrite <- Zle_Qle; lia).
    literals. lra.
Qed.

(** X9. On the values that the inputs of Tab 2 can send,
    [calculate_bmr_tdee] never answers with its error message, takes the
    multiplier from the table and not the default, and stores a TDEE
    that is not 0. *)
Theorem energy_form_sets_tdee (W : wording) (age : Q) (gender : string)
    (height weight : Q) (activity_level : string) (st : state) :
  energy_form age gender height weight activity_level = true ->
  exists bmr tdee st',
    calculate_bmr_tdee W age gender height weight activity_level st
    = (Return (bmr, tdee, tdee, tdee - 500, tdee + 500,
               [Text (energy_done W)]), st')
    /\ activity_level ∈ activity_multipliers.*1
    /\ tdee_value st' = tdee
    /\ ~ tdee == 0.
Proof.
  intros Hform.
  destruct (energy_form_values _ _ _ _ _ Hform) as (_ & _ & Hl).
  destruct (energy_form_nonzero _ _ _ _ _ Hform) as [Hg Hnz].
  unfold calculate_bmr_tdee. rewrite Hg.
  eexists _, _, _. split; [reflexivity|].
  split; [exact Hl|]. split; [reflexivity | exact Hnz].
Qed.

Lemma energy_form_sets_tdee_witness :
  energy_form 100 "Male" 50 20.5 "Very active (6-7 days/week)" = true
  /\ exists bmr tdee st',
      calculate_bmr_tdee Kawaii 100 "Male" 50 20.5
        "Very active (6-7 days/week)" fresh
      = (Return (bmr, tdee, tdee, tdee - 500, tdee + 500,
                 [Text (energy_done Kawaii)]), st')
      /\ tdee_value st' = tdee /\ ~ tdee == 0.
Proof.
  split; [reflexivity|].
  destruct (energy_form_sets_tdee Kawaii 100 "Male" 50 20.5
              "Very active (6-7 days/week)" fresh eq_refl)
    as (bmr & tdee & st' & Hcall & _ & Hst & Hnz).
  exists bmr, tdee, st'. auto.
Defined.

(** X10. On the values that the inputs of Tab 2 can send, the BMR and
    the TDEE are positive for "Female" at any age and for "Male" up to
    the age of 87. Above, they need not be: the oldest, shortest and
    lightest man of the sliders gets a negative BMR. *)
Theorem energy_form_sign (W : wording) (st : state) :
  (forall age gender height weight activity_level,
      energy_form age gender height weight activity_level = true ->
      gender = "Female" \/ age <= 87 ->
      exists bmr tdee st',
        calculate_bmr_tdee W age gender height weight activity_level st
        = (Return (bmr, tdee, tdee, tdee - 500, tdee + 500,
                   [Text (energy_done W)]), st')
        /\ 0 < bmr /\ 0 < tdee)
  /\ (energy_form 100 "Male" 50 20 "Sedentary (little to no exercise)" = true
      /\ exists bmr tdee st',
          calculate_bmr_tdee W 100 "Male" 50 20
            "Sedentary (little to no exercise)" st
          = (Return (bmr, tdee, tdee, tdee - 500, tdee + 500,
                     [Text (energy_done W)]), st')
          /\ bmr < 0 /\ tdee < 0).
Proof.
  split.
  - intros age gender height weight activity_level Hform Hcase.
    destruct (energy_form_values _ _ _ _ _ Hform)
      as ((a & h & w & Ea & Eh & Ew & Ha & Hh & Hw) & Hg & Hl).
    assert (inject_Z 10 <= inject_Z a) by (rewrite <- Zle_Qle; lia).
    assert (inject_Z a <= inject_Z 100) by (rewrite <- Zle_Qle; lia).
    assert (inject_Z 50 <= inject_Z h) by (rewrite <- Zle_Qle; lia).
    assert (inject_Z 200 <= inject_Z w) by (rewrite <- Zle_Qle; lia).
    literals.
    assert (0 < age /\ 0 < height /\ 0 < weight) as (Pa & Ph & Pw)
      by (repeat split; lra).
    unfold calculate_bmr_tdee.
    rewrite (energy_guard_passes age height weight Pa Ph Pw).
    eexists _, _, _. split; [reflexivity|].
    pose proof (listed_multiplier activity_level Hl) as Hm.
    set (m := dict_get activity_multipliers activity_level 1.2) in *.
    assert (0 < m) as Pm.
    { clearbody m.
      repeat (apply elem_of_cons in Hm as [-> | Hm]; [reflexivity|]).
      inversion Hm. }
    assert (0 < (if String.eqb gender "Male"
                 then 66.5 + 13.75 * weight + 5.003 * height - 6.75 * age
                 else 655.1 + 9.563 * weight + 1.850 * height - 4.676 * age))
      as Pb.
    { destruct Hg as [-> | ->]; simpl.
      - destruct Hcase as [Hc | Hc]; [discriminate | lra].
      - lra. }
    split; [exact Pb|]. apply Qmult_lt_0_compat; assumption.
  - split; [reflexivity|]. eexists _, _, _.
    split; [reflexivity|]. split; reflexivity.
Qed.

Lemma energy_form_sign_witness :
  energy_form 87 "Male" 50 20 "Sedentary (little to no exercise)" = true
  /\ ("Male" = "Female" \/ 87 <= 87)
  /\ exists bmr tdee st',
      calculate_bmr_tdee Kawaii 87 "Male" 50 20
        "Sedentary (little to no exercise)" fresh
      = (Return (bmr, tdee, tdee, tdee - 500, tdee + 500,
                 [Text (energy_done Kawaii)]), st')
      /\ 0 < bmr /\ 0 < tdee.
Proof.
  assert ("Male" = "Female" \/ 87 <= 87) as Hc by (right; discriminate).
  split; [reflexivity|]. split; [exact Hc|].
  exact (proj1 (energy_form_sign Kawaii fresh) 87 "Male" 50 20
           "Sedentary (little to no exercise)" eq_refl Hc).
Defined.

(** ** The food log, on every input *)

(** The three ways a call can go: it raises, it refuses the entry, or it
    logs it. Only the last changes the state. *)
Lemma log_food_and_plot_cases (W : wording) (food : string)
    (manual_food_name : option string) (manual_calories : option Q)
    (today : string) (st : state) :
  (log_food_and_plot W food manual_food_name manual_calories today st
   = (Raise ValueError, st)
   /\ logged_calories food manual_food_name manual_calories = 0)
  \/ (log_food_and_plot W food manual_food_name manual_calories today st
      = (Return (default 0 (daily_calories st !! today),
                 EmptyPlot (invalid_log W), [Text (invalid_log W)]), st)
      /\ logged_calories food manual_food_name manual_calories = 0)
  \/ (exists c n,
        resolve_entry food manual_food_name manual_calories = Return (c, n)
        /\ 0 < c /\ n <> ""
        /\ logged_calories food manual_food_name manual_calories = c).
Proof.
  unfold logged_calories.
  destruct (resolve_entry food manual_food_name manual_calories)
    as [[c n]|e] eqn:Hr.
  - destruct (Qle_bool c 0 || negb (truthy (Some n))) eqn:G.
    + right. left. split; [|reflexivity].
      unfold log_food_and_plot. rewrite Hr, G. reflexivity.
    + right. right. apply orb_false_iff in G as [Hc Hn].
      apply Qle_bool_false_iff in Hc. apply negb_false_iff, truthy_Some in Hn.
      exists c, n. auto.
  - left. split; [|reflexivity]. destruct e.
    + apply log_food_and_plot_raises. exact Hr.
    + exfalso. unfold resolve_entry in Hr.
      repeat match type of Hr with
             | context [match ?x with _ => _ end] => destruct x
             end; discriminate.
Qed.

Lemma log_call_rest (W : wording) (food : string)
    (manual_food_name : option string) (manual_calories : option Q)
    (today : string) (st : state) :
  bmi_history
    (log_food_and_plot W food manual_food_name manual_calories today st).2
  = bmi_history st
  /\ tdee_value
       (log_food_and_plot W food manual_food_name manual_calories today st).2
     = tdee_value st.
Proof.
  destruct (log_food_and_plot_cases W food manual_food_name manual_calories
              today st)
    as [[-> _] | [[-> _] | (c & n & Hr & Hc & Hn & _)]];
    [split; reflexivity | split; reflexivity |].
  rewrite (log_food_and_plot_accepted W _ _ _ today st c n Hr Hc Hn).
  split; reflexivity.
Qed.

(** The totals after [log_food_and_plot], in one equation. *)
Lemma log_call_totals (W : wording) (food : string)
    (manual_food_name : option string) (manual_calories : option Q)
    (today : string) (st : state) :
  daily_calories
    (log_food_and_plot W food manual_food_name manual_calories today st).2
  = match resolve_entry food manual_food_name manual_calories with
    | Return (c, n) =>
        if Qle_bool c 0 || negb (truthy (Some n)) then daily_calories st
        else log_food today c (daily_calories st)
    | Raise _ => daily_calories st
    end.
Proof.
  unfold log_food_and_plot.
  destruct (resolve_entry food manual_food_name manual_calories)
    as [[c n]|e]; [|reflexivity].
  destruct (Qle_bool c 0 || negb (truthy (Some n))); [reflexivity|].
  simpl.
  repeat match goal with
         | |- context [if ?b then _ else _] => destruct b
         end; reflexivity.
Qed.

(** X11. Whatever its inputs, [log_food_and_plot] leaves the BMI history
    and the TDEE alone, changes the total of no date but today's, drops
    no date and lowers no total. *)
Theorem log_click_frame (W : wording) (food : string)
    (manual_food_name : option string) (manual_calories : option Q)
    (today : string) (st : state) :
  let st' := (log_food_and_plot W food manual_food_name manual_calories
                today st).2 in
  bmi_history st' = bmi_history st
  /\ tdee_value st' = tdee_value st
  /\ (forall d, d <> today -> daily_calories st' !! d = daily_calories st !! d)
  /\ (forall d, is_Some (daily_calories st !! d) ->
                is_Some (daily_calories st' !! d))
  /\ (forall d, default 0 (daily_calories st !! d)
                <= default 0 (daily_calories st' !! d)).
Proof.
  destruct (log_food_and_plot_cases W food manual_food_name manual_calories
              today st)
    as [[-> _] | [[-> _] | (c & n & Hr & Hc & Hn & _)]]; simpl.
  - repeat split; auto. intros d. lra.
  - repeat split; auto. intros d. lra.
  - rewrite (log_food_and_plot_accepted W _ _ _ today st c n Hr Hc Hn). simpl.
    split; [reflexivity|]. split; [reflexivity|].
    split; [intros d Hd; apply log_food_other; exact Hd|].
    split.
    + intros d Hd. destruct (decide (d = today)) as [-> | Hne].
      * rewrite log_food_today. eauto.
      * rewrite log_food_other by exact Hne. exact Hd.
    + intros d. destruct (decide (d = today)) as [-> | Hne].
      * pose proof (log_food_adds today c (daily_calories st)). lra.
      * rewrite log_food_other by exact Hne. lra.
Qed.

(** X12. When [log_food_and_plot] returns a chart, the chart has one bar
    for each date that has a total, today among them, and today's bar is
    the total that the call returns. *)
Theorem chart_has_todays_bar (W : wording) (food : string)
    (manual_food_name : option string) (manual_calories : option Q)
    (today : string) (st : state) (total : Q) (dates : list string)
    (calories : list Q) (line : Q) (message : text) (st' : state) :
  log_food_and_plot W food manual_food_name manual_calories today st
  = (Return (total, BarChart dates calories line, message), st') ->
  length dates = size (daily_calories st')
  /\ length calories = length dates
  /\ exists i, dates !! i = Some today /\ calories !! i = Some total.
Proof.
  intros Hcall.
  destruct (log_food_and_plot_cases W food manual_food_name manual_calories
              today st)
    as [[E _] | [[E _] | (c & n & Hr & Hc & Hn & _)]];
    [rewrite E in Hcall; discriminate Hcall
    |rewrite E in Hcall; discriminate Hcall|].
  rewrite (log_food_and_plot_accepted W _ _ _ today st c n Hr Hc Hn) in Hcall.
  destruct (Qeq_bool (tdee_value st) 0); [discriminate|].
  injection Hcall as <- <- <- _ _ <-. simpl.
  set (dc := log_food today c (daily_calories st)).
  split; [|split].
  - unfold chart_dates. rewrite merge_sort_Permutation, length_fmap.
    apply length_map_to_list.
  - unfold chart_calories. apply length_fmap.
  - assert (today ∈ chart_dates dc) as Hin.
    { apply chart_dates_elem. subst dc. rewrite log_food_today. eauto. }
    apply list_elem_of_lookup in Hin as [i Hi]. exists i. split; [exact Hi|].
    rewrite (chart_calories_lookup dc i today Hi).
    subst dc. rewrite log_food_today. reflexivity.
Qed.

Lemma chart_has_todays_bar_witness :
  log_food_and_plot Kawaii "Other" (Some "Tea") (Some 35) "2024-01-05"
    sample_state
  = (Return (35, BarChart ["2024-01-04"; "2024-01-05"] [1800; 35] 2000,
             [Text (logged_head Kawaii); Text "Tea"; Text " - "; Number 35;
              Text (logged_tail Kawaii)]),
     {| bmi_history := ∅;
        daily_calories := <["2024-01-05" := 35]> {[ "2024-01-04" := 1800 ]};
        tdee_value := 2000 |})
  /\ exists i, ["2024-01-04"; "2024-01-05"] !! i = Some "2024-01-05"
               /\ [1800; 35] !! i = Some 35.
Proof.
  assert (log_food_and_plot Kawaii "Other" (Some "Tea") (Some 35) "2024-01-05"
            sample_state
          = (Return (35, BarChart ["2024-01-04"; "2024-01-05"] [1800; 35] 2000,
                     [Text (logged_head Kawaii); Text "Tea"; Text " - ";
                      Number 35; Text (logged_tail Kawaii)]),
             {| bmi_history := ∅;
                daily_calories :=
                  <["2024-01-05" := 35]> {[ "2024-01-04" := 1800 ]};
                tdee_value := 2000 |})) as Hcall by reflexivity.
  split; [exact Hcall|].
  exact (proj2 (proj2 (chart_has_todays_bar _ _ _ _ _ _ _ _ _ _ _ _ Hcall))).
Defined.

(** X13. Neither file ever returns its "No food logged yet" message or
    the blank figure without a title of its own: by the time the
    emptiness of the totals is tested, today's total has been written. *)
Theorem no_food_branch_is_dead (W : wording) (food : string)
    (manual_food_name : option string) (manual_calories : option Q)
    (today : string) (st : state) (total : Q) (fig : figure) (message : text)
    (st' : state) :
  W = Kawaii \/ W = HCA ->
  log_food_and_plot W food manual_food_name manual_calories today st
  = (Return (total, fig, message), st') ->
  fig <> EmptyPlot "No Data to Display"
  /\ message <> [Text (nothing_logged W)].
Proof.
  intros HW Hcall.
  destruct (log_food_and_plot_cases W food manual_food_name manual_calories
              today st)
    as [[E _] | [[E _] | (c & n & Hr & Hc & Hn & _)]].
  - rewrite E in Hcall. discriminate.
  - rewrite E in Hcall. injection Hcall as _ <- <- _.
    destruct HW as [-> | ->]; split; discriminate.
  - rewrite (log_food_and_plot_accepted W _ _ _ today st c n Hr Hc Hn) in Hcall.
    destruct (Qeq_bool (tdee_value st) 0); injection Hcall as _ <- <- _.
    + destruct HW as [-> | ->]; split; discriminate.
    + split; discriminate.
Qed.

Lemma no_food_branch_is_dead_witness :
  (HCA = Kawaii \/ HCA = HCA)
  /\ log_food_and_plot HCA "Rice - 130 kcal" None None "2024-01-05" fresh
     = (Return (130, EmptyPlot (tdee_first HCA), [Text (tdee_first HCA)]),
        {| bmi_history := ∅;
           daily_calories := {[ "2024-01-05" := 130 ]};
           tdee_value := 0 |})
  /\ EmptyPlot (tdee_first HCA) <> EmptyPlot "No Data to Display"
  /\ [Text (tdee_first HCA)] <> [Text (nothing_logged HCA)].
Proof.
  assert (HCA = Kawaii \/ HCA = HCA) as HW by (right; reflexivity).
  assert (log_food_and_plot HCA "Rice - 130 kcal" None None "2024-01-05" fresh
          = (Return (130, EmptyPlot (tdee_first HCA), [Text (tdee_first HCA)]),
             {| bmi_history := ∅;
                daily_calories := {[ "2024-01-05" := 130 ]};
                tdee_value := 0 |})) as Hcall by reflexivity.
  split; [exact HW|]. split; [exact Hcall|].
  exact (no_food_branch_is_dead _ _ _ _ _ _ _ _ _ _ HW Hcall).
Defined.

(** X14. The two manual inputs are read only while their column is
    shown: with a selection that hides it, whatever they hold changes
    nothing; with the selection that shows it, the call cannot raise. *)
Theorem hidden_inputs_are_ignored (W : wording) (food : string)
    (today : string) (st : state) :
  (manual_input_col_visible food = false ->
   forall name1 calories1 name2 calories2,
     log_food_and_plot W food name1 calories1 today st
     = log_food_and_plot W food name2 calories2 today st)
  /\ (manual_input_col_visible food = true ->
      forall name calories,
      exists result st',
        log_food_and_plot W food name calories today st = (Return result, st')).
Proof.
  unfold manual_input_col_visible. split.
  - intros Hv name1 calories1 name2 calories2.
    unfold log_food_and_plot, resolve_entry. rewrite Hv. reflexivity.
  - intros Hv name calories. apply String.eqb_eq in Hv as ->.
    destruct (log_food_and_plot_cases W "Other" name calories today st)
      as [[E _] | [[E _] | (c & n & Hr & Hc & Hn & _)]].
    + exfalso.
      assert (resolve_entry "Other" name calories <> Raise ValueError) as Hne.
      { unfold resolve_entry. simpl.
        repeat match goal with
               | |- context [match ?x with _ => _ end] => destruct x
               end; discriminate. }
      unfold log_food_and_plot in E.
      destruct (resolve_entry "Other" name calories) as [[c n]|e] eqn:Hr.
      * repeat match type of E with
               | context [if ?b then _ else _] => destruct b
               end; discriminate.
      * destruct e; [contradiction | discriminate].
    + rewrite E. eauto.
    + rewrite (log_food_and_plot_accepted W _ _ _ today st c n Hr Hc Hn).
      eauto.
Qed.

Lemma hidden_inputs_are_ignored_witness :
  manual_input_col_visible "Rice - 130 kcal" = false
  /\ log_food_and_plot Kawaii "Rice - 130 kcal" (Some "Cake") (Some 900)
       "2024-01-05" fresh
     = log_food_and_plot Kawaii "Rice - 130 kcal" None None "2024-01-05" fresh.
Proof.
  split; [reflexivity|].
  exact (proj1 (hidden_inputs_are_ignored Kawaii "Rice - 130 kcal" "2024-01-05"
                  fresh) eq_refl (Some "Cake") (Some 900) None None).
Defined.

(** ** Catalog entries in general *)

Lemma rev_app_append (s acc t : string) :
  String.rev_app s acc +:+ t = String.rev_app s (acc +:+ t).
Proof.
  revert acc. induction s as [|c s IH]; intros acc; [reflexivity|].
  simpl. rewrite IH. reflexivity.
Qed.

Lemma rev_snoc (c : ascii) (cur t : string) :
  String.rev (String c cur) +:+ t = String.rev cur +:+ String c t.
Proof. unfold String.rev. simpl. rewrite !rev_app_append. reflexivity. Qed.

Lemma append_empty_r (s : string) : s +:+ "" = s.
Proof. induction s as [|c s IH]; [reflexivity|]. rewrite append_String, IH. reflexivity. Qed.

Lemma prefix_String (a b : ascii) (s1 s2 : string) :
  String.prefix (String a s1) (String b s2)
  = if ascii_dec a b then String.prefix s1 s2 else false.
Proof. reflexivity. Qed.

Lemma digit_not_space (d : ascii) (s : string) (pat : string) :
  PyStr.isdigit d = true -> String.prefix (String " " pat) (String d s) = false.
Proof.
  intros Hd. rewrite prefix_String.
  destruct (ascii_dec " " d) as [<- | _]; [discriminate|].
  reflexivity.
Qed.

Lemma prefix_empty (s : string) : String.prefix "" s = true.
Proof. destruct s; reflexivity. Qed.

Lemma prefix_append (p rest : string) : String.prefix p (p +:+ rest) = true.
Proof.
  induction p as [|a p IH]; [destruct rest; reflexivity|].
  rewrite append_String, prefix_String.
  destruct (ascii_dec a a); [exact IH | contradiction].
Qed.

Lemma split_go_separator (cur rest : string) :
  PyStr.split_go " - " 0 cur (" - " +:+ rest)
  = String.rev cur :: PyStr.split_go " - " 0 "" rest.
Proof.
  change (PyStr.split_go " - " 0 cur (" - " +:+ rest))
    with (if String.prefix " - " (" - " +:+ rest)
          then String.rev cur :: PyStr.split_go " - " 0 "" rest
          else PyStr.split_go " - " 0 (String " " cur)
                 (String "-" (String " " rest))).
  rewrite prefix_append. reflexivity.
Qed.

(** Splitting at " - " passes over a name that holds no space followed
    by a dash. *)
Lemma split_go_name (name cur rest : string) :
  has_space_dash name = false ->
  PyStr.split_go " - " 0 cur (name +:+ " - " +:+ rest)
  = (String.rev cur +:+ name) :: PyStr.split_go " - " 0 "" rest.
Proof.
  revert cur. induction name as [|c name IH]; intros cur Hn.
  - rewrite append_empty, append_empty_r. apply split_go_separator.
  - cbn [has_space_dash] in Hn. apply orb_false_iff in Hn as [Hc Hn].
    rewrite append_String.
    assert (String.prefix " - " (String c (name +:+ " - " +:+ rest)) = false)
      as Hp.
    { rewrite prefix_String.
      destruct (ascii_dec " " c) as [<- | _]; [|reflexivity].
      change (Ascii.eqb " " " ") with true in Hc. rewrite andb_true_l in Hc.
      destruct name as [|d name]; [reflexivity|].
      rewrite append_String, prefix_String. rewrite prefix_String in Hc.
      destruct (ascii_dec "-" d); [|reflexivity].
      rewrite prefix_empty in Hc. discriminate Hc. }
    change (PyStr.split_go " - " 0 cur (String c (name +:+ " - " +:+ rest)))
      with (if String.prefix " - " (String c (name +:+ " - " +:+ rest))
            then String.rev cur
                 :: PyStr.split_go " - " (String.length " - " - 1) ""
                      (name +:+ " - " +:+ rest)
            else PyStr.split_go " - " 0 (String c cur)
                   (name +:+ " - " +:+ rest)).
    rewrite Hp, (IH (String c cur) Hn), rev_snoc. reflexivity.
Qed.

(** It finds nothing to split in digits followed by " kcal". *)
Lemma split_go_digits (ds cur : string) :
  all_digits ds = true ->
  PyStr.split_go " - " 0 cur (ds +:+ " kcal")
  = [String.rev cur +:+ ds +:+ " kcal"].
Proof.
  revert cur. induction ds as [|d ds IH]; intros cur Hd.
  - rewrite append_empty. unfold String.rev. simpl.
    rewrite rev_app_append. reflexivity.
  - cbn [all_digits] in Hd. apply andb_true_iff in Hd as [Hd Hds].
    rewrite append_String.
    change (PyStr.split_go " - " 0 cur (String d (ds +:+ " kcal")))
      with (if String.prefix " - " (String d (ds +:+ " kcal"))
            then String.rev cur
                 :: PyStr.split_go " - " (String.length " - " - 1) ""
                      (ds +:+ " kcal")
            else PyStr.split_go " - " 0 (String d cur) (ds +:+ " kcal")).
    rewrite (digit_not_space d _ _ Hd), (IH (String d cur) Hds), rev_snoc.
    reflexivity.
Qed.

(** Removing " kcal" from digits followed by " kcal" leaves the digits. *)
Lemma replace_go_digits (ds : string) :
  all_digits ds = true ->
  PyStr.replace_go " kcal" "" 0 (ds +:+ " kcal") = ds.
Proof.
  induction ds as [|d ds IH]; intros Hd; [reflexivity|].
  cbn [all_digits] in Hd. apply andb_true_iff in Hd as [Hd Hds].
  rewrite append_String.
  change (PyStr.replace_go " kcal" "" 0 (String d (ds +:+ " kcal")))
    with (if String.prefix " kcal" (String d (ds +:+ " kcal"))
          then "" +:+ PyStr.replace_go " kcal" "" (String.length " kcal" - 1)
                        (ds +:+ " kcal")
          else String d (PyStr.replace_go " kcal" "" 0 (ds +:+ " kcal"))).
  rewrite (digit_not_space d _ _ Hd), (IH Hds). reflexivity.
Qed.

Lemma split_catalog_format (name ds : string) :
  has_space_dash name = false -> all_digits ds = true ->
  PyStr.split " - " (name +:+ " - " +:+ ds +:+ " kcal")
  = [name; ds +:+ " kcal"].
Proof.
  intros Hn Hd. unfold PyStr.split.
  rewrite (split_go_name name "" _ Hn), (split_go_digits ds "" Hd).
  reflexivity.
Qed.

(** ** [int] on a run of digits *)

Lemma isdigit_range (d : ascii) :
  PyStr.isdigit d = true -> (48 <= N_of_ascii d <= 57)%N.
Proof.
  unfold PyStr.isdigit. intros H. apply andb_true_iff in H as [H1 H2].
  apply N.leb_le in H1, H2. lia.
Qed.

Lemma digit_is_no_space (d : ascii) :
  PyStr.isdigit d = true -> PyStr.isspace d = false.
Proof.
  intros H. apply isdigit_range in H. unfold PyStr.isspace.
  apply orb_false_iff. split.
  - apply andb_false_iff. right. apply N.leb_gt. lia.
  - apply N.eqb_neq. lia.
Qed.

Lemma digit_value_range (d : ascii) :
  PyStr.isdigit d = true -> (0 <= PyStr.digit_value d <= 9)%Z.
Proof. intros H. apply isdigit_range in H. unfold PyStr.digit_value. lia. Qed.

Lemma all_digits_rev_app (s acc : string) :
  all_digits (String.rev_app s acc) = all_digits s && all_digits acc.
Proof.
  revert acc. induction s as [|c s IH]; intros acc; [reflexivity|].
  cbn [String.rev_app all_digits]. rewrite IH. cbn [all_digits].
  destruct (PyStr.isdigit c), (all_digits s), (all_digits acc); reflexivity.
Qed.

Lemma rev_app_rev_app (s acc acc' : string) :
  String.rev_app (String.rev_app s acc) acc' = String.rev_app acc (s +:+ acc').
Proof.
  revert acc acc'. induction s as [|c s IH]; intros acc acc'; [reflexivity|].
  cbn [String.rev_app]. rewrite IH. reflexivity.
Qed.

Lemma rev_rev (s : string) : String.rev (String.rev s) = s.
Proof.
  unfold String.rev. rewrite rev_app_rev_app. cbn [String.rev_app].
  induction s as [|c s IH]; [reflexivity|].
  change (String c s +:+ "") with (String c (s +:+ "")). rewrite IH.
  reflexivity.
Qed.

Lemma lstrip_digits (s : string) :
  all_digits s = true -> PyStr.lstrip s = s.
Proof.
  destruct s as [|d s]; [reflexivity|]. cbn [all_digits PyStr.lstrip].
  intros H. apply andb_true_iff in H as [Hd _].
  rewrite (digit_is_no_space d Hd). reflexivity.
Qed.

Lemma strip_digits (s : string) : all_digits s = true -> PyStr.strip s = s.
Proof.
  intros H. unfold PyStr.strip. rewrite (lstrip_digits s H).
  rewrite lstrip_digits; [apply rev_rev|].
  unfold String.rev. rewrite all_digits_rev_app, H. reflexivity.
Qed.

Lemma digits_go_digits (s : string) (acc : Z) (n : nat) :
  all_digits s = true -> (0 <= acc)%Z ->
  exists v, PyStr.digits_go acc n s = Some (v, (n + String.length s)%nat)
            /\ (0 <= v)%Z.
Proof.
  revert acc n. induction s as [|d s IH]; intros acc n H Hacc.
  - exists acc. cbn. rewrite Nat.add_0_r. auto.
  - cbn [all_digits] in H. apply andb_true_iff in H as [Hd Hs].
    cbn [PyStr.digits_go String.length]. rewrite Hd.
    pose proof (digit_value_range d Hd).
    destruct (IH (10 * acc + PyStr.digit_value d)%Z (S n) Hs ltac:(lia))
      as (v & Hv & Hpos).
    exists v. rewrite Hv. split; [f_equal; f_equal; lia | exact Hpos].
Qed.

(** A digit is not a sign. *)
Lemma int_of_digit_first (d : ascii) (s : string) :
  PyStr.isdigit d = true ->
  PyStr.strip (String d s) = String d s ->
  PyStr.int (String d s) = PyStr.unsigned (String d s).
Proof.
  intros Hd Hs. unfold PyStr.int. rewrite Hs.
  destruct d as [[] [] [] [] [] [] [] []];
    first [ discriminate Hd | reflexivity ].
Qed.

(** [int] reads any run of one to 4300 digits, as a number that is not
    negative. *)
Lemma int_digits (ds : string) :
  all_digits ds = true -> ds <> "" ->
  (String.length ds <= PyStr.int_max_str_digits)%nat ->
  exists v, PyStr.int ds = Some v /\ (0 <= v)%Z.
Proof.
  intros H Hne Hlen. destruct ds as [|d s]; [contradiction|].
  pose proof H as H'. cbn [all_digits] in H'.
  apply andb_true_iff in H' as [Hd Hs].
  rewrite (int_of_digit_first d s Hd (strip_digits _ H)).
  cbn [PyStr.unsigned]. rewrite Hd.
  pose proof (digit_value_range d Hd).
  destruct (digits_go_digits s (PyStr.digit_value d) 1 Hs ltac:(lia))
    as (v & Hv & Hpos).
  rewrite Hv. cbn [String.length] in Hlen.
  assert ((PyStr.int_max_str_digits <? 1 + String.length s)%nat = false) as ->
    by (apply Nat.ltb_ge; lia).
  exists v. auto.
Qed.

Lemma resolve_catalog_format (name ds : string) (v : Z)
    (manual_food_name : option string) (manual_calories : option Q) :
  has_space_dash name = false -> all_digits ds = true ->
  PyStr.int ds = Some v ->
  resolve_entry (name +:+ " - " +:+ ds +:+ " kcal") manual_food_name
    manual_calories
  = Return (inject_Z v, name).
Proof.
  intros Hn Hd Hv. unfold resolve_entry.
  pose proof (split_catalog_format name ds Hn Hd) as Hs.
  destruct (String.eqb_spec (name +:+ " - " +:+ ds +:+ " kcal") "Other")
    as [E | _].
  { rewrite E in Hs. discriminate Hs. }
  simpl negb. cbv iota. rewrite Hs.
  unfold PyStr.final, PyStr.first, PyStr.replace. simpl List.last. simpl hd.
  rewrite (replace_go_digits ds Hd), Hv. reflexivity.
Qed.

(** X15. A selection made of a name that holds no space followed by a
    dash, then " - ", then one to 4300 decimal digits, then " kcal"
    resolves to that name and to the number that the digits spell, which
    is not negative, whatever the manual inputs hold. *)
Theorem catalog_format_resolves (name ds : string)
    (manual_food_name : option string) (manual_calories : option Q) :
  has_space_dash name = false -> all_digits ds = true -> ds <> "" ->
  (String.length ds <= PyStr.int_max_str_digits)%nat ->
  exists v,
    PyStr.int ds = Some v /\ (0 <= v)%Z
    /\ resolve_entry (name +:+ " - " +:+ ds +:+ " kcal") manual_food_name
         manual_calories
       = Return (inject_Z v, name).
Proof.
  intros Hn Hd Hne Hlen.
  destruct (int_digits ds Hd Hne Hlen) as (v & Hv & Hpos).
  exists v. split; [exact Hv|]. split; [exact Hpos|].
  apply resolve_catalog_format; assumption.
Qed.

Lemma catalog_format_resolves_witness :
  has_space_dash "Thai-style fried rice" = false
  /\ all_digits "550" = true /\ "550" <> ""
  /\ (String.length "550" <= PyStr.int_max_str_digits)%nat
  /\ resolve_entry ("Thai-style fried rice" +:+ " - " +:+ "550" +:+ " kcal")
       None None
     = Return (550, "Thai-style fried rice").
Proof.
  assert ("550" <> "") as Hne by discriminate.
  assert (String.length "550" <= PyStr.int_max_str_digits)%nat as Hlen
    by (unfold PyStr.int_max_str_digits; cbn [String.length]; lia).
  split; [reflexivity|]. split; [reflexivity|]. split; [exact Hne|].
  split; [exact Hlen|].
  destruct (catalog_format_resolves "Thai-style fried rice" "550" None None
              eq_refl eq_refl Hne Hlen) as (v & Hv & _ & Hr).
  assert (v = 550%Z) as -> by (vm_compute in Hv; congruence).
  exact Hr.
Defined.

Lemma log_catalog_as_manual (W : wording) (name ds : string) (v : Z)
    (manual_food_name : option string) (manual_calories : option Q)
    (today : string) (st : state) :
  has_space_dash name = false -> all_digits ds = true ->
  PyStr.int ds = Some v ->
  log_food_and_plot W (name +:+ " - " +:+ ds +:+ " kcal") manual_food_name
    manual_calories today st
  = log_food_and_plot W "Other" (Some name) (Some (inject_Z v)) today st.
Proof.
  intros Hn Hd Hv. unfold log_food_and_plot.
  rewrite (resolve_catalog_format name ds v _ _ Hn Hd Hv).
  unfold resolve_entry. simpl String.eqb. simpl negb. cbv iota.
  destruct (PyNum.Qlt_bool 0 (inject_Z v)) eqn:Hpos.
  - destruct name as [|c name]; simpl.
    + rewrite !orb_true_r. replace (Qle_bool 0 0) with true by reflexivity.
      reflexivity.
    + reflexivity.
  - apply Qlt_bool_false_iff, Qle_bool_iff in Hpos. simpl andb. cbv iota.
    rewrite Hpos. reflexivity.
Qed.

(** X16. Choosing such an entry from the list and typing its name and
    its calories by hand are the same to [log_food_and_plot]: same
    result, same state. *)
Theorem catalog_entry_as_manual (W : wording) (name ds : string)
    (manual_food_name : option string) (manual_calories : option Q)
    (today : string) (st : state) :
  has_space_dash name = false -> all_digits ds = true -> ds <> "" ->
  (String.length ds <= PyStr.int_max_str_digits)%nat ->
  exists v,
    PyStr.int ds = Some v
    /\ log_food_and_plot W (name +:+ " - " +:+ ds +:+ " kcal")
         manual_food_name manual_calories today st
       = log_food_and_plot W "Other" (Some name) (Some (inject_Z v)) today st.
Proof.
  intros Hn Hd Hne Hlen.
  destruct (int_digits ds Hd Hne Hlen) as (v & Hv & _).
  exists v. split; [exact Hv|]. apply log_catalog_as_manual; assumption.
Qed.

Lemma catalog_entry_as_manual_witness :
  has_space_dash "Omelet" = false /\ all_digits "450" = true /\ "450" <> ""
  /\ (String.length "450" <= PyStr.int_max_str_digits)%nat
  /\ log_food_and_plot Kawaii ("Omelet" +:+ " - " +:+ "450" +:+ " kcal")
       None None "2024-01-05" sample_state
     = log_food_and_plot Kawaii "Other" (Some "Omelet") (Some (inject_Z 450))
         "2024-01-05" sample_state.
Proof.
  assert ("450" <> "") as Hne by discriminate.
  assert (String.length "450" <= PyStr.int_max_str_digits)%nat as Hlen
    by (unfold PyStr.int_max_str_digits; cbn [String.length]; lia).
  split; [reflexivity|]. split; [reflexivity|]. split; [exact Hne|].
  split; [exact Hlen|].
  destruct (catalog_entry_as_manual Kawaii "Omelet" "450" None None
              "2024-01-05" sample_state eq_refl eq_refl Hne Hlen)
    as (v & Hv & Hlog).
  assert (v = 450%Z) as -> by (vm_compute in Hv; congruence).
  exact Hlog.
Defined.

(** ** Sessions of clicks *)

Lemma session_cons (W : wording) (c : click) (clicks : list click) (st : state) :
  session W (c :: clicks) st = session W clicks (click_step W st c).
Proof. reflexivity. Qed.

(** What a click does to each global, given what it held before. *)
Lemma click_step_bmi_history (W : wording) (c : click) (st1 st2 : state) :
  bmi_history st1 = bmi_history st2 ->
  bmi_history (click_step W st1 c)
  = if on_bmi_tab c then bmi_history (click_step W st2 c) else bmi_history st2.
Proof.
  intros E. destruct c as [h w u d | a g h w l | f n m t]; simpl.
  - destruct (bmi_step_cases W {| call_height := h; call_weight := w;
                                  call_units := u; call_date := d |})
      as [(k & b & _ & Hs) | Hs]; unfold bmi_step in Hs; simpl in Hs;
      rewrite !Hs; simpl; congruence.
  - rewrite energy_call_state.
    destruct (Qle_bool a 0 || Qle_bool h 0 || Qle_bool w 0); exact E.
  - rewrite (proj1 (log_call_rest W f n m t st1)). exact E.
Qed.

Lemma click_step_tdee_value (W : wording) (c : click) (st1 st2 : state) :
  tdee_value st1 = tdee_value st2 ->
  tdee_value (click_step W st1 c)
  = if on_energy_tab c then tdee_value (click_step W st2 c) else tdee_value st2.
Proof.
  intros E. destruct c as [h w u d | a g h w l | f n m t]; simpl.
  - rewrite (proj2 (bmi_call_rest W h w u d st1)). exact E.
  - rewrite !energy_call_state.
    destruct (Qle_bool a 0 || Qle_bool h 0 || Qle_bool w 0); simpl;
      [exact E | reflexivity].
  - rewrite (proj2 (log_call_rest W f n m t st1)). exact E.
Qed.

Lemma click_step_daily_calories (W : wording) (c : click) (st1 st2 : state) :
  daily_calories st1 = daily_calories st2 ->
  daily_calories (click_step W st1 c)
  = if on_food_tab c then daily_calories (click_step W st2 c)
    else daily_calories st2.
Proof.
  intros E. destruct c as [h w u d | a g h w l | f n m t]; simpl.
  - rewrite (proj1 (bmi_call_rest W h w u d st1)). exact E.
  - rewrite energy_call_state.
    destruct (Qle_bool a 0 || Qle_bool h 0 || Qle_bool w 0); exact E.
  - rewrite !log_call_totals, E. reflexivity.
Qed.

(** A global that each click changes only on its own tab, and there as
    a function of that global alone, is left by a session as the clicks
    of that tab alone leave it. *)
Lemma session_component {A : Type} (W : wording) (proj : state -> A)
    (tab : click -> bool) :
  (forall c st1 st2, proj st1 = proj st2 ->
     proj (click_step W st1 c)
     = if tab c then proj (click_step W st2 c) else proj st2) ->
  forall clicks st1 st2, proj st1 = proj st2 ->
    proj (session W clicks st1) = proj (session W (filter tab clicks) st2).
Proof.
  intros Hstep clicks.
  induction clicks as [|c clicks IH]; intros st1 st2 E; [exact E|].
  rewrite session_cons. pose proof (Hstep c st1 st2 E) as Hc.
  destruct (tab c) eqn:Ht.
  - rewrite filter_cons_True by (rewrite Ht; exact I).
    rewrite session_cons. apply IH. exact Hc.
  - rewrite filter_cons_False by (rewrite Ht; intros []).
    apply IH. exact Hc.
Qed.

(** X17. The three tabs do not interfere: after any sequence of clicks,
    the BMI history is what the clicks of Tab 1 alone would have left,
    the TDEE what those of Tab 2 alone would have left, and the food
    totals what those of Tab 3 alone would have left. *)
Theorem tabs_do_not_interfere (W : wording) (clicks : list click) (st : state) :
  bmi_history (session W clicks st)
  = bmi_history (session W (filter on_bmi_tab clicks) st)
  /\ tdee_value (session W clicks st)
     = tdee_value (session W (filter on_energy_tab clicks) st)
  /\ daily_calories (session W clicks st)
     = daily_calories (session W (filter on_food_tab clicks) st).
Proof.
  split; [|split].
  - apply (session_component W bmi_history on_bmi_tab); [|reflexivity].
    apply click_step_bmi_history.
  - apply (session_component W tdee_value on_energy_tab); [|reflexivity].
    apply click_step_tdee_value.
  - apply (session_component W daily_calories on_food_tab); [|reflexivity].
    apply click_step_daily_calories.
Qed.

(** What one click adds to the total of a day. *)
Lemma click_step_total (W : wording) (c : click) (st : state) (day : string) :
  default 0 (daily_calories (click_step W st c) !! day)
  == default 0 (daily_calories st !! day) + calories_on day [c].
Proof.
  destruct c as [h w u d | a g h w l | f n m t]; simpl.
  - rewrite (proj1 (bmi_call_rest W h w u d st)). lra.
  - rewrite energy_call_state.
    destruct (Qle_bool a 0 || Qle_bool h 0 || Qle_bool w 0); simpl; lra.
  - rewrite log_call_totals. unfold logged_calories.
    destruct (resolve_entry f n m) as [[c nm]|e];
      [|destruct (String.eqb t day); lra].
    destruct (Qle_bool c 0 || negb (truthy (Some nm)));
      [destruct (String.eqb t day); lra|].
    destruct (String.eqb_spec t day) as [-> | Hne].
    + pose proof (log_food_adds day c (daily_calories st)). lra.
    + rewrite log_food_other by congruence. lra.
Qed.

(** X18. After any sequence of clicks, the total of a day is what it was
    before plus the calories of the entries that were accepted on that
    day; refused entries, entries that raised and clicks on the other
    tabs add nothing. *)
Theorem totals_are_sums (W : wording) (clicks : list click) (st : state)
    (day : string) :
  default 0 (daily_calories (session W clicks st) !! day)
  == default 0 (daily_calories st !! day) + calories_on day clicks.
Proof.
  revert st. induction clicks as [|c clicks IH]; intros st.
  - simpl. lra.
  - rewrite session_cons, IH, click_step_total.
    destruct c; simpl; lra.
Qed.

Lemma log_food_positive (today : string) (c : Q) (t : gmap string Q) :
  0 < c -> positive_totals t -> positive_totals (log_food today c t).
Proof.
  intros Hc Ht d v Hv. destruct (decide (d = today)) as [-> | Hne].
  - rewrite log_food_today in Hv. injection Hv as <-.
    destruct (t !! today) as [old|] eqn:Ho; [|exact Hc].
    pose proof (Ht today old Ho). lra.
  - rewrite log_food_other in Hv by exact Hne. exact (Ht d v Hv).
Qed.

Lemma click_step_positive (W : wording) (c : click) (st : state) :
  positive_totals (daily_calories st) ->
  positive_totals (daily_calories (click_step W st c)).
Proof.
  intros Ht. destruct c as [h w u d | a g h w l | f n m t]; simpl.
  - rewrite (proj1 (bmi_call_rest W h w u d st)). exact Ht.
  - rewrite energy_call_state.
    destruct (Qle_bool a 0 || Qle_bool h 0 || Qle_bool w 0); exact Ht.
  - rewrite log_call_totals.
    destruct (resolve_entry f n m) as [[c nm]|e]; [|exact Ht].
    destruct (Qle_bool c 0 || negb (truthy (Some nm))) eqn:G; [exact Ht|].
    apply orb_false_iff in G as [Hc _]. apply Qle_bool_false_iff in Hc.
    apply log_food_positive; assumption.
Qed.

(** X19. Totals that are all positive stay all positive through any
    sequence of clicks; in particular no total of a session that starts
    with the globals as initialised is ever 0 or negative. *)
Theorem totals_stay_positive (W : wording) (clicks : list click) (st : state) :
  positive_totals (daily_calories st) ->
  positive_totals (daily_calories (session W clicks st)).
Proof.
  revert st. induction clicks as [|c clicks IH]; intros st Ht; [exact Ht|].
  rewrite session_cons. apply IH, click_step_positive, Ht.
Qed.

Lemma totals_stay_positive_witness :
  positive_totals (daily_calories fresh)
  /\ positive_totals
       (daily_calories
          (session Kawaii
             [ ClickLog "Rice - 130 kcal" None None "2024-01-05";
               ClickBmi 170 70 "cm/kg" "2024-01-05";
               ClickLog "Other" (Some "Tea") (Some (-5)) "2024-01-05";
               ClickLog "Other" (Some "Tea") (Some 35) "2024-01-06" ]
             fresh)).
Proof.
  assert (positive_totals (daily_calories fresh)) as H0.
  { intros d v Hv. change (daily_calories fresh) with (∅ : gmap string Q) in Hv.
    rewrite lookup_empty in Hv. discriminate Hv. }
  split; [exact H0|]. apply totals_stay_positive. exact H0.
Defined.

(** What a directive of the pattern hands on, when the match succeeds. *)
Lemma lit_passes {A : Type} (c : ascii) (k : string -> option A) (s : string)
    (x : A) :
  PyDate.lit c k s = Some x -> exists r, k r = Some x.
Proof.
  destruct s as [|a r]; [discriminate|]. cbn [PyDate.lit].
  destruct (Ascii.eqb a c); [eauto | discriminate].
Qed.

Lemma two_passes {A : Type} (lo1 hi1 lo2 hi2 : ascii)
    (k : Z -> string -> option A) (s : string) (x : A) :
  PyDate.two lo1 hi1 lo2 hi2 k s = Some x -> exists n r, k n r = Some x.
Proof.
  destruct s as [|a [|b r]]; try discriminate. cbn [PyDate.two].
  destruct (PyDate.between lo1 hi1 a && PyDate.between lo2 hi2 b);
    [eauto | discriminate].
Qed.

Lemma one_passes {A : Type} (lo hi : ascii) (k : Z -> string -> option A)
    (s : string) (x : A) :
  PyDate.one lo hi k s = Some x -> exists n r, k n r = Some x.
Proof.
  destruct s as [|a r]; [discriminate|]. cbn [PyDate.one].
  destruct (PyDate.between lo hi a); [eauto | discriminate].
Qed.

Lemma orelse_passes {A : Type} (a b : option A) (x : A) :
  PyDate.orelse a b = Some x -> a = Some x \/ b = Some x.
Proof. destruct a; simpl; auto. Qed.

Lemma dir_m_passes {A : Type} (k : Z -> string -> option A) (s : string)
    (x : A) :
  PyDate.dir_m k s = Some x -> exists n r, k n r = Some x.
Proof.
  unfold PyDate.dir_m. intros H.
  repeat (apply orelse_passes in H as [H | H];
          [apply two_passes in H; exact H|]).
  apply one_passes in H. exact H.
Qed.

Lemma dir_d_passes {A : Type} (k : Z -> string -> option A) (s : string)
    (x : A) :
  PyDate.dir_d k s = Some x -> exists n r, k n r = Some x.
Proof.
  unfold PyDate.dir_d. intros H.
  repeat (apply orelse_passes in H as [H | H];
          [first [ apply two_passes in H | apply one_passes in H ]; exact H|]).
  apply two_passes in H. exact H.
Qed.

(** A date text that parses and whose first character is not the digit 0
    has a year of four digits. *)
Lemma strptime_plain_year (s : string) (d : PyDate.date) :
  PyDate.strptime s = Some d -> plain_year s = true ->
  (1000 <= PyDate.year d)%Z.
Proof.
  unfold PyDate.strptime. intros H Hp.
  destruct (PyDate.regex_match s) as [[d' [|? ?]]|] eqn:Hm; try discriminate.
  destruct (PyDate.valid d'); [|discriminate]. injection H as <-.
  unfold PyDate.regex_match, PyDate.dir_Y in Hm.
  destruct s as [|a [|b [|c [|e r]]]]; try discriminate.
  destruct (PyStr.isdigit a) eqn:Ha; [|discriminate].
  destruct (PyStr.isdigit b) eqn:Hb; [|discriminate].
  destruct (PyStr.isdigit c) eqn:Hc; [|discriminate].
  destruct (PyStr.isdigit e) eqn:He; [|discriminate].
  cbn [andb] in Hm.
  apply lit_passes in Hm as [r1 Hm]. apply dir_m_passes in Hm as (m & r2 & Hm).
  apply lit_passes in Hm as [r3 Hm]. apply dir_d_passes in Hm as (n & r4 & Hm).
  injection Hm as <- _. cbn [PyDate.year].
  cbn [plain_year] in Hp. apply andb_true_iff in Hp as [_ Hz].
  apply negb_true_iff, Ascii.eqb_neq in Hz.
  pose proof (isdigit_range a Ha) as Ra.
  pose proof (digit_value_range b Hb). pose proof (digit_value_range c Hc).
  pose proof (digit_value_range e He).
  assert (N_of_ascii a <> 48%N) as Hne.
  { intros E. apply Hz. rewrite <- (ascii_N_embedding a), E. reflexivity. }
  unfold PyStr.digit_value in *. lia.
Qed.

Lemma click_step_canonical (W : wording) (c : click) (st : state) :
  years_plain c = true ->
  canonical_history (bmi_history st) ->
  canonical_history (bmi_history (click_step W st c)).
Proof.
  intros Hy Hc. destruct c as [h w u d | a g h w l | f n m t]; simpl.
  - destruct (calculate_and_track_bmi_cases W h w u d st)
      as [(dt & b & _ & _ & Hd & ->) | [[_ ->] | (_ & _ & _ & ->)]];
      [|exact Hc..].
    simpl. intros k Hk. rewrite lookup_insert in Hk. case_decide as E.
    + subst k. exists dt. split; [exact (normalised_date_parses d dt Hd)|].
      split; [reflexivity|]. exact (strptime_plain_year d dt Hd Hy).
    + exact (Hc k Hk).
  - rewrite energy_call_state.
    destruct (Qle_bool a 0 || Qle_bool h 0 || Qle_bool w 0); exact Hc.
  - rewrite (proj1 (log_call_rest W f n m t st)). exact Hc.
Qed.

(** X20. Through any sequence of clicks whose dates are not typed with a
    leading zero in the year, the keys of the BMI history keep this form:
    each is a date of the years 1000 to 9999 as [strftime] writes it, one
    that [strptime] reads back to the same date. *)
Theorem history_stays_canonical (W : wording) (clicks : list click)
    (st : state) :
  forallb years_plain clicks = true ->
  canonical_history (bmi_history st) ->
  canonical_history (bmi_history (session W clicks st)).
Proof.
  revert st. induction clicks as [|c clicks IH]; intros st Hy Hc; [exact Hc|].
  cbn [forallb] in Hy. apply andb_true_iff in Hy as [Hy1 Hy2].
  rewrite session_cons. apply IH; [exact Hy2|].
  apply click_step_canonical; assumption.
Qed.

Lemma history_stays_canonical_witness :
  forallb years_plain
    [ ClickBmi 170 70 "cm/kg" "2024-1-5";
      ClickBmi 0 70 "cm/kg" "2024-01-06";
      ClickEnergy 30 "Male" 170 70 "Very active (6-7 days/week)";
      ClickBmi 67 154 "in/lbs" "tomorrow" ]
  = true
  /\ canonical_history (bmi_history fresh)
  /\ canonical_history
       (bmi_history
          (session Kawaii
             [ ClickBmi 170 70 "cm/kg" "2024-1-5";
               ClickBmi 0 70 "cm/kg" "2024-01-06";
               ClickEnergy 30 "Male" 170 70 "Very active (6-7 days/week)";
               ClickBmi 67 154 "in/lbs" "tomorrow" ]
             fresh)).
Proof.
  assert (canonical_history (bmi_history fresh)) as H0.
  { intros k [v Hv]. change (bmi_history fresh) with (∅ : gmap string Q) in Hv.
    rewrite lookup_empty in Hv. discriminate Hv. }
  split; [reflexivity|]. split; [exact H0|].
  apply history_stays_canonical; [reflexivity | exact H0].
Defined.

Lemma click_step_gate (W : wording) (c : click) (st : state) :
  energy_from_form c = true ->
  ~ tdee_value st == 0 \/ on_energy_tab c = true ->
  ~ tdee_value (click_step W st c) == 0.
Proof.
  intros Hf Hopen. destruct c as [h w u d | a g h w l | f n m t]; simpl.
  - rewrite (proj2 (bmi_call_rest W h w u d st)).
    destruct Hopen as [H | H]; [exact H | discriminate H].
  - rewrite energy_call_state.
    destruct (energy_form_nonzero a g h w l Hf) as [-> Hnz]. exact Hnz.
  - rewrite (proj2 (log_call_rest W f n m t st)).
    destruct Hopen as [H | H]; [exact H | discriminate H].
Qed.

(** X21. Once open, the gate of the chart stays open: in a session whose
    clicks on Tab 2 all carry values that its inputs can send, the TDEE
    is not 0 at the end if it was not 0 at the start or if Tab 2 was
    clicked at all, and an entry accepted then comes back with the
    chart. *)
Theorem gate_stays_open (W : wording) (clicks : list click) (st : state) :
  Forall (fun c => energy_from_form c = true) clicks ->
  ~ tdee_value st == 0 \/ Exists (fun c => on_energy_tab c = true) clicks ->
  ~ tdee_value (session W clicks st) == 0
  /\ forall food manual_food_name manual_calories today c n,
      resolve_entry food manual_food_name manual_calories = Return (c, n) ->
      0 < c -> n <> "" ->
      exists total dates calories message st',
        log_food_and_plot W food manual_food_name manual_calories today
          (session W clicks st)
        = (Return (total, BarChart dates calories
                            (tdee_value (session W clicks st)), message), st').
Proof.
  intros Hform Hopen.
  assert (~ tdee_value (session W clicks st) == 0) as Hnz.
  { revert st Hopen.
    induction Hform as [|c clicks Hc _ IH]; intros st Hopen.
    - destruct Hopen as [H | H]; [exact H | inversion H].
    - rewrite session_cons.
      destruct (on_energy_tab c) eqn:Ht.
      + apply IH. left. apply click_step_gate; [exact Hc | right; exact Ht].
      + destruct Hopen as [H | H].
        * apply IH. left. apply click_step_gate; [exact Hc | left; exact H].
        * apply Exists_cons in H as [H | H]; [congruence|].
          apply IH. right. exact H. }
  split; [exact Hnz|].
  intros food manual_food_name manual_calories today c n Hr Hc Hn.
  rewrite (log_food_and_plot_accepted W _ _ _ today _ c n Hr Hc Hn).
  apply Qeq_bool_false_iff in Hnz. rewrite Hnz.
  eexists _, _, _, _, _. reflexivity.
Qed.

Lemma gate_stays_open_witness :
  Forall (fun c => energy_from_form c = true)
    [ ClickLog "Rice - 130 kcal" None None "2024-01-05";
      ClickEnergy 30 "Male" 170 70 "Very active (6-7 days/week)";
      ClickBmi 170 70 "cm/kg" "2024-01-05" ]
  /\ (~ tdee_value fresh == 0
      \/ Exists (fun c => on_energy_tab c = true)
           [ ClickLog "Rice - 130 kcal" None None "2024-01-05";
             ClickEnergy 30 "Male" 170 70 "Very active (6-7 days/week)";
             ClickBmi 170 70 "cm/kg" "2024-01-05" ])
  /\ ~ tdee_value
         (session Kawaii
            [ ClickLog "Rice - 130 kcal" None None "2024-01-05";
              ClickEnergy 30 "Male" 170 70 "Very active (6-7 days/week)";
              ClickBmi 170 70 "cm/kg" "2024-01-05" ]
            fresh) == 0.
Proof.
  assert (Forall (fun c => energy_from_form c = true)
            [ ClickLog "Rice - 130 kcal" None None "2024-01-05";
              ClickEnergy 30 "Male" 170 70 "Very active (6-7 days/week)";
              ClickBmi 170 70 "cm/kg" "2024-01-05" ]) as Hf
    by (repeat constructor).
  assert (~ tdee_value fresh == 0
          \/ Exists (fun c => on_energy_tab c = true)
               [ ClickLog "Rice - 130 kcal" None None "2024-01-05";
                 ClickEnergy 30 "Male" 170 70 "Very active (6-7 days/week)";
                 ClickBmi 170 70 "cm/kg" "2024-01-05" ]) as Ho.
  { right. apply Exists_cons_tl, Exists_cons_hd. reflexivity. }
  split; [exact Hf|]. split; [exact Ho|].
  exact (proj1 (gate_stays_open Kawaii _ fresh Hf Ho)).
Defined.

(** ** The form of Tab 1 *)

Lemma slider_range (minimum maximum step value : Q) :
  slider minimum maximum step value = true ->
  minimum <= value /\ value <= maximum.
Proof.
  unfold slider. intros H.
  apply andb_true_iff in H as [H _]. apply andb_true_iff in H as [Hlo Hhi].
  split; apply Qle_bool_iff; assumption.
Qed.

(** X22. On the values that the inputs of Tab 1 can send, the numbers
    are never refused: the call fails only on the date. When it
    succeeds the BMI is at least 0.22 and at most 800, so from the form
    a BMI of 0 comes only with an error. *)
Theorem bmi_form_fails_only_on_date (W : wording) (height weight : Q)
    (units date_str : string) (st : state) :
  bmi_form height weight units = true ->
  exists bmi category message st',
    calculate_and_track_bmi W height weight units date_str st
    = (Return (bmi, category, message), st')
    /\ category <> "Invalid input"
    /\ (is_Some (PyDate.strptime date_str) -> 0.22 <= bmi /\ bmi <= 800)
    /\ (PyDate.strptime date_str = None ->
        bmi = 0 /\ category = "Invalid date format").
Proof.
  unfold bmi_form. intros H.
  apply andb_true_iff in H as [H Hu]. apply andb_true_iff in H as [Hh Hw].
  apply slider_range in Hh as [Hh1 Hh2]. apply slider_range in Hw as [Hw1 Hw2].
  assert (0 < height) as Ph by lra. assert (0 < weight) as Pw by lra.
  destruct (PyDate.strptime date_str) as [dt|] eqn:Hd.
  - rewrite (calculate_and_track_bmi_ok W _ _ units _ dt st Ph Pw Hd).
    eexists _, _, _, _. split; [reflexivity|].
    split.
    { pose proof (bmi_category_label
                    (PyNum.round2
                       ((convert_to_metric height weight units).2
                        / ((convert_to_metric height weight units).1 / 100) ^ 2)))
        as Hl.
      intros E. rewrite E in Hl. unlisted Hl. }
    split; [|discriminate]. intros _.
    apply orb_true_iff in Hu as [Hu | Hu]; apply String.eqb_eq in Hu; subst units;
      simpl convert_to_metric; simpl fst; simpl snd; split.
    + apply Qle_trans with (PyNum.round2 (20 / (250 / 100) ^ 2));
        [discriminate|].
      apply round2_mono, quotient_mono; lra.
    + apply Qle_trans with (PyNum.round2 (200 / (50 / 100) ^ 2));
        [|discriminate].
      apply round2_mono, quotient_mono; lra.
    + apply Qle_trans
        with (PyNum.round2 (20 * 0.453592 / (250 * 2.54 / 100) ^ 2));
        [discriminate|].
      apply round2_mono, quotient_mono; lra.
    + apply Qle_trans
        with (PyNum.round2 (200 * 0.453592 / (50 * 2.54 / 100) ^ 2));
        [|discriminate].
      apply round2_mono, quotient_mono; lra.
  - rewrite (calculate_and_track_bmi_invalid_date W _ _ units _ st Ph Pw Hd).
    eexists _, _, _, _. split; [reflexivity|].
    split; [discriminate|]. split; [intros [x Hx]; discriminate Hx|].
    intros _. split; reflexivity.
Qed.

Lemma bmi_form_fails_only_on_date_witness :
  bmi_form 250 20.1 "in/lbs" = true
  /\ exists bmi category message st',
      calculate_and_track_bmi Kawaii 250 20.1 "in/lbs" "2024-01-05" fresh
      = (Return (bmi, category, message), st')
      /\ category <> "Invalid input"
      /\ 0.22 <= bmi /\ bmi <= 800.
Proof.
  split; [reflexivity|].
  destruct (bmi_form_fails_only_on_date Kawaii 250 20.1 "in/lbs" "2024-01-05"
              fresh eq_refl)
    as (bmi & category & message & st' & Hcall & Hcat & Hok & _).
  exists bmi, category, message, st'.
  split; [exact Hcall|]. split; [exact Hcat|].
  apply Hok. eexists. reflexivity.
Defined.

(** ** The profile tab *)

(** X23. [save_profile_data] stores the three fields under "name",
    "email" and "goal" and touches no other key. Nothing of an earlier
    profile survives: saving over one leaves what saving without it
    would have left, and from the empty dictionary the profile has
    exactly these three keys. *)
Theorem profile_is_replaced (name email goal : string)
    (personal_data : gmap string string) :
  let saved := (save_profile_data name email goal personal_data).2 in
  saved !! "name" = Some name
  /\ saved !! "email" = Some email
  /\ saved !! "goal" = Some goal
  /\ (forall k, k <> "name" -> k <> "email" -> k <> "goal" ->
        saved !! k = personal_data !! k)
  /\ (forall name' email' goal',
        (save_profile_data name email goal
           (save_profile_data name' email' goal' personal_data).2).2
        = saved)
  /\ (personal_data = ∅ -> size saved = 3%nat).
Proof.
  unfold save_profile_data. simpl.
  split; [rewrite !lookup_insert_ne by discriminate; apply lookup_insert_eq|].
  split; [rewrite lookup_insert_ne by discriminate; apply lookup_insert_eq|].
  split; [apply lookup_insert_eq|].
  split; [intros k H1 H2 H3; rewrite !lookup_insert_ne by congruence;
          reflexivity|].
  split.
  - intros name' email' goal'. apply map_eq. intros k.
    rewrite !lookup_insert. repeat case_decide; reflexivity.
  - intros ->.
    rewrite !map_size_insert_None, map_size_empty; [reflexivity|..].
    + apply lookup_empty.
    + rewrite lookup_insert_ne by discriminate. apply lookup_empty.
    + rewrite !lookup_insert_ne by discriminate. apply lookup_empty.
Qed.

(** ** The frame properties on sample inputs *)

Lemma bmi_click_frame_witness :
  bmi_history sample_state !! "2024-01-05" = None
  /\ daily_calories
       (calculate_and_track_bmi Kawaii 170 70 "cm/kg" "2024-01-05"
          sample_state).2
     = daily_calories sample_state
  /\ tdee_value
       (calculate_and_track_bmi Kawaii 170 70 "cm/kg" "2024-01-05"
          sample_state).2
     = tdee_value sample_state.
Proof.
  split; [reflexivity|].
  destruct (bmi_click_frame Kawaii 170 70 "cm/kg" "2024-01-05" sample_state)
    as (Hd & Ht & _).
  split; [exact Hd | exact Ht].
Defined.

Lemma bmi_category_tells_outcome_witness :
  calculate_and_track_bmi Kawaii 170 70 "cm/kg" "5 Jan 2024" sample_state
  = (Return (0, "Invalid date format",
             [Text "Please enter date in YYYY-MM-DD format."]),
     sample_state)
  /\ PyDate.strptime "5 Jan 2024" = None
  /\ ~ (170 <= 0 \/ 70 <= 0).
Proof.
  assert (calculate_and_track_bmi Kawaii 170 70 "cm/kg" "5 Jan 2024"
            sample_state
          = (Return (0, "Invalid date format",
                     [Text "Please enter date in YYYY-MM-DD format."]),
             sample_state)) as Hcall by reflexivity.
  split; [exact Hcall|].
  destruct (bmi_category_tells_outcome Kawaii 170 70 "cm/kg" "5 Jan 2024"
              sample_state 0 "Invalid date format"
              [Text "Please enter date in YYYY-MM-DD format."] sample_state
              Hcall)
    as (Hin & Hdate & _).
  split; [exact (Hdate eq_refl)|].
  intros Hbad. apply Hin in Hbad. discriminate Hbad.
Defined.

Lemma energy_click_frame_witness :
  (0 <= 0 \/ 170 <= 0 \/ 70 <= 0)
  /\ (calculate_bmr_tdee Kawaii 0 "Male" 170 70
        "Sedentary (little to no exercise)" sample_state).2
     = sample_state.
Proof.
  assert (0 <= 0 \/ 170 <= 0 \/ 70 <= 0) as Hbad by (left; discriminate).
  split; [exact Hbad|].
  destruct (energy_click_frame Kawaii 0 "Male" 170 70
              "Sedentary (little to no exercise)" sample_state)
    as (_ & _ & Hkeep & _).
  exact (Hkeep Hbad).
Defined.

Lemma log_click_frame_witness :
  "2024-01-04" <> "2024-01-05"
  /\ daily_calories
       (log_food_and_plot Kawaii "Rice - 130 kcal" None None "2024-01-05"
          sample_state).2 !! "2024-01-04"
     = Some 1800
  /\ tdee_value
       (log_food_and_plot Kawaii "Rice - 130 kcal" None None "2024-01-05"
          sample_state).2
     = 2000.
Proof.
  assert ("2024-01-04" <> "2024-01-05") as Hne by discriminate.
  split; [exact Hne|].
  destruct (log_click_frame Kawaii "Rice - 130 kcal" None None "2024-01-05"
              sample_state)
    as (_ & Ht & Hother & _).
  split; [rewrite (Hother "2024-01-04" Hne); reflexivity | exact Ht].
Defined.

Lemma profile_is_replaced_witness :
  (∅ : gmap string string) = ∅
  /\ size (save_profile_data "Mali" "mali@example.org" "Maintenance" ∅).2
     = 3%nat
  /\ (save_profile_data "Mali" "mali@example.org" "Maintenance"
        (save_profile_data "Lek" "" "Weight Loss" ∅).2).2
     = (save_profile_data "Mali" "mali@example.org" "Maintenance" ∅).2.
Proof.
  split; [reflexivity|].
  destruct (profile_is_replaced "Mali" "mali@example.org" "Maintenance" ∅)
    as (_ & _ & _ & _ & Hover & Hsize).
  split; [exact (Hsize eq_refl) | apply Hover].
Defined.
